(** * kivy.uix.splitter: the Splitter widget

    A shallow embedding of [kivy/uix/splitter.py].  The Splitter is a
    BoxLayout holding one managed panel ([_container]) and a drag strip
    ([_strip]); dragging the strip resizes the Splitter along the axis
    selected by [sizable_from], clamped to [[min_size, max_size]].

    Conventions of the embedding:
    - Python numbers (pixel sizes, touch deltas, size hints) are exact
      rationals [Q]; [/] is true division and raises on a zero divisor.
    - Python objects are referred to by reference ([ref]); the child
      widgets live in a heap and are shared between [children], [_strip]
      and [_container], as in the source.
    - A method that mutates [self] takes the state and returns the new
      state; a method that can raise returns a [result]. *)

From Stdlib Require Import QArith Lqa Bool String Ascii List.
From stdpp Require Import gmap list.
Import ListNotations.

Local Open Scope Q_scope.

(** ** Python values and outcomes *)

Definition ref := nat.

Inductive PyError := AttributeError | ZeroDivisionError.

Inductive result (A : Type) : Type :=
| Ok (a : A)
| Raise (e : PyError).
Arguments Ok {A} a.
Arguments Raise {A} e.

#[global] Instance result_ret : MRet result := fun A a => Ok a.
#[global] Instance result_bind : MBind result := fun A B k m =>
  match m with
  | Ok a => k a
  | Raise e => Raise e
  end.

(** What a handler hands back to the event dispatcher: [return] with no
    value, [return False], or an [Exception] instance given back as a
    value (not raised). *)
Inductive PyVal :=
| PyNone
| PyFalse
| PyException (msg : string).

(** The dispatcher stops at a handler whose return value is truthy; an
    exception instance is an object, hence truthy. *)
Definition truthy (v : PyVal) : bool :=
  match v with
  | PyNone | PyFalse => false
  | PyException _ => true
  end.

(** ** Numbers *)

Definition gt (a b : Q) : bool := negb (Qle_bool a b).
Definition lt (a b : Q) : bool := negb (Qle_bool b a).

(** [a / b] on Python numbers. *)
Definition py_div (a b : Q) : result Q :=
  if Qeq_bool b 0 then Raise ZeroDivisionError else Ok (a / b).

(** [a is b] on references that may be [None]. *)
Definition is_ (a b : option ref) : bool :=
  match a, b with
  | None, None => true
  | Some x, Some y => Nat.eqb x y
  | _, _ => false
  end.

(** ** Data model *)

(** [sizable_from = OptionProperty('left', options=('left', 'right',
    'top', 'bottom'))]. *)
Inductive Edge := from_left | from_right | from_top | from_bottom.

Definition option_name (e : Edge) : string :=
  match e with
  | from_left => "left"
  | from_right => "right"
  | from_top => "top"
  | from_bottom => "bottom"
  end.

(** [self.sizable_from[0]] *)
Definition first_char (e : Edge) : ascii :=
  match option_name e with
  | String c _ => c
  | EmptyString => zero
  end.

(** [c in (c1, c2)] *)
Definition in_ (c : ascii) (cs : list ascii) : bool :=
  existsb (Ascii.eqb c) cs.

Inductive Orientation := horizontal | vertical.

(** The bound methods of the Splitter that are registered on the strip. *)
Inductive Method := strip_down_m | strip_move_m | strip_up_m.

(** [_strp.setter('width')], [_strp.setter('height')]. *)
Inductive Attr := attr_width | attr_height.

Module Widget.
(** The attributes of a child widget (panel or strip) that the
    Splitter reads or writes, and the handlers bound to its touch
    events (in binding order). *)
Record t := mk {
  size_hint_x : option Q;
  size_hint_y : option Q;
  width : Q;
  height : Q;
  on_touch_down : list Method;
  on_touch_move : list Method;
  on_touch_up : list Method
}.

Definition with_size_hint (hx hy : option Q) (w : t) : t :=
  mk hx hy (width w) (height w)
     (on_touch_down w) (on_touch_move w) (on_touch_up w).
Definition with_size_hint_x (hx : option Q) (w : t) : t :=
  with_size_hint hx (size_hint_y w) w.
Definition with_size_hint_y (hy : option Q) (w : t) : t :=
  with_size_hint (size_hint_x w) hy w.
Definition with_width (v : Q) (w : t) : t :=
  mk (size_hint_x w) (size_hint_y w) v (height w)
     (on_touch_down w) (on_touch_move w) (on_touch_up w).
Definition with_height (v : Q) (w : t) : t :=
  mk (size_hint_x w) (size_hint_y w) (width w) v
     (on_touch_down w) (on_touch_move w) (on_touch_up w).
Definition with_on_touch_down (l : list Method) (w : t) : t :=
  mk (size_hint_x w) (size_hint_y w) (width w) (height w)
     l (on_touch_move w) (on_touch_up w).
Definition with_on_touch_move (l : list Method) (w : t) : t :=
  mk (size_hint_x w) (size_hint_y w) (width w) (height w)
     (on_touch_down w) l (on_touch_up w).
Definition with_on_touch_up (l : list Method) (w : t) : t :=
  mk (size_hint_x w) (size_hint_y w) (width w) (height w)
     (on_touch_down w) (on_touch_move w) l.
End Widget.

(** The parent layout, of which only the extents are read. *)
Record Parent := { parent_width : Q; parent_height : Q }.

(** A touch ([MotionEvent]): position, incremental deltas, the widget
    the event is currently dispatched to as grab owner, and the widgets
    that have grabbed it. *)
Record Touch := {
  pos : Q * Q;
  dx : Q;
  dy : Q;
  grab_current : option ref;
  grab_list : list ref
}.

Record Splitter := mkSplitter {
  self : ref;
  sizable_from : Edge;
  strip_size : Q;
  min_size : Q;
  max_size : Q;
  _container : option ref;
  _strip : option ref;
  children : list ref;
  orientation : Orientation;
  size_hint_x : option Q;
  size_hint_y : option Q;
  x : Q;
  y : Q;
  width : Q;
  height : Q;
  parent : option Parent;
  strip_size_observers : list (ref * Attr)
}.

Definition with_sizable_from (v : Edge) (s : Splitter) : Splitter :=
  mkSplitter (self s) v (strip_size s) (min_size s) (max_size s)
    (_container s) (_strip s) (children s) (orientation s)
    (size_hint_x s) (size_hint_y s) (x s) (y s) (width s) (height s)
    (parent s) (strip_size_observers s).
Definition with__container (v : option ref) (s : Splitter) : Splitter :=
  mkSplitter (self s) (sizable_from s) (strip_size s) (min_size s) (max_size s)
    v (_strip s) (children s) (orientation s)
    (size_hint_x s) (size_hint_y s) (x s) (y s) (width s) (height s)
    (parent s) (strip_size_observers s).
Definition with__strip (v : option ref) (s : Splitter) : Splitter :=
  mkSplitter (self s) (sizable_from s) (strip_size s) (min_size s) (max_size s)
    (_container s) v (children s) (orientation s)
    (size_hint_x s) (size_hint_y s) (x s) (y s) (width s) (height s)
    (parent s) (strip_size_observers s).
Definition with_children (v : list ref) (s : Splitter) : Splitter :=
  mkSplitter (self s) (sizable_from s) (strip_size s) (min_size s) (max_size s)
    (_container s) (_strip s) v (orientation s)
    (size_hint_x s) (size_hint_y s) (x s) (y s) (width s) (height s)
    (parent s) (strip_size_observers s).
Definition with_orientation (v : Orientation) (s : Splitter) : Splitter :=
  mkSplitter (self s) (sizable_from s) (strip_size s) (min_size s) (max_size s)
    (_container s) (_strip s) (children s) v
    (size_hint_x s) (size_hint_y s) (x s) (y s) (width s) (height s)
    (parent s) (strip_size_observers s).
Definition with_size_hint_x (v : option Q) (s : Splitter) : Splitter :=
  mkSplitter (self s) (sizable_from s) (strip_size s) (min_size s) (max_size s)
    (_container s) (_strip s) (children s) (orientation s)
    v (size_hint_y s) (x s) (y s) (width s) (height s)
    (parent s) (strip_size_observers s).
Definition with_size_hint_y (v : option Q) (s : Splitter) : Splitter :=
  mkSplitter (self s) (sizable_from s) (strip_size s) (min_size s) (max_size s)
    (_container s) (_strip s) (children s) (orientation s)
    (size_hint_x s) v (x s) (y s) (width s) (height s)
    (parent s) (strip_size_observers s).
Definition with_width (v : Q) (s : Splitter) : Splitter :=
  mkSplitter (self s) (sizable_from s) (strip_size s) (min_size s) (max_size s)
    (_container s) (_strip s) (children s) (orientation s)
    (size_hint_x s) (size_hint_y s) (x s) (y s) v (height s)
    (parent s) (strip_size_observers s).
Definition with_height (v : Q) (s : Splitter) : Splitter :=
  mkSplitter (self s) (sizable_from s) (strip_size s) (min_size s) (max_size s)
    (_container s) (_strip s) (children s) (orientation s)
    (size_hint_x s) (size_hint_y s) (x s) (y s) (width s) v
    (parent s) (strip_size_observers s).
Definition with_strip_size_observers (v : list (ref * Attr)) (s : Splitter)
  : Splitter :=
  mkSplitter (self s) (sizable_from s) (strip_size s) (min_size s) (max_size s)
    (_container s) (_strip s) (children s) (orientation s)
    (size_hint_x s) (size_hint_y s) (x s) (y s) (width s) (height s)
    (parent s) v.

(** [self.parent.width] and [self.parent.height]: an orphan Splitter has
    [parent = None], and the attribute access raises. *)
Definition parent_extent (get : Parent -> Q) (s : Splitter) : result Q :=
  match parent s with
  | Some p => Ok (get p)
  | None => Raise AttributeError
  end.

(** The Splitter together with the other objects it refers to: the
    child widgets by reference, and the allocator's next free
    reference. *)
Record World := mkWorld {
  splitter : Splitter;
  heap : gmap ref Widget.t;
  next_ref : ref
}.

Definition update_splitter (f : Splitter -> Splitter) (w : World) : World :=
  mkWorld (f (splitter w)) (heap w) (next_ref w).

(** Attribute assignment on the object behind a reference. *)
Definition update_widget (r : ref) (f : Widget.t -> Widget.t) (w : World)
  : World :=
  mkWorld (splitter w) (alter f r (heap w)) (next_ref w).

#[global] Instance Method_eq_dec : EqDecision Method.
Proof. solve_decision. Defined.
#[global] Instance Attr_eq_dec : EqDecision Attr.
Proof. solve_decision. Defined.
#[global] Instance Edge_eq_dec : EqDecision Edge.
Proof. solve_decision. Defined.

(** ** The toolkit underneath the Splitter *)

(** [l.remove(x)] guarded by [x in l]: drops the first occurrence. *)
Fixpoint remove_first {A} `{EqDecision A} (a : A) (l : list A) : list A :=
  match l with
  | [] => []
  | b :: l' => if decide (a = b) then l' else b :: remove_first a l'
  end.

(** [l.insert(index, x)]: an index past the end appends, a negative
    index counts from the end and stops at the front. *)
Definition list_insert_at {A} (index : Z) (a : A) (l : list A) : list A :=
  let n := if (index <? 0)%Z
           then Z.to_nat (Z.max 0 (Z.of_nat (length l) + index))
           else Z.to_nat index in
  take n l ++ a :: drop n l.

(** Modelled from the spec: the container's native child insertion
    ([super().add_widget(widget, index)] of the BoxLayout base, which is
    not part of this file): an ordered child list with insert-at-index. *)
Definition sup_add_widget (widget : ref) (index : Z) (s : Splitter)
  : Splitter :=
  with_children (list_insert_at index widget (children s)) s.

(** Modelled from the spec: the container's native removal
    ([super().remove_widget(widget)]); removing a widget that is not a
    child, or [None], does nothing. *)
Definition sup_remove_widget (widget : option ref) (s : Splitter)
  : Splitter :=
  match widget with
  | Some r => with_children (remove_first r (children s)) s
  | None => s
  end.

(** Modelled from the spec: property and event binding of the toolkit
    ([bind] subscribes a callback, [unbind] removes one subscription of
    it if there is one). *)
Definition bind_ {A} (cb : A) (l : list A) : list A := l ++ [cb].
Definition unbind {A} `{EqDecision A} (cb : A) (l : list A) : list A :=
  remove_first cb l.

(** [self.unbind(strip_size=_strp.setter(name))].  The toolkit's [setter]
    (not part of this file) builds a new callable on every call, and
    [unbind] removes a subscription only when it compares equal to its
    argument: a setter built for the occasion equals none of those
    subscribed before, and nothing is removed.  (Bound methods such as
    [self.strip_down] do compare equal, see [unbind].) *)
Definition unbind_setter (cb : ref * Attr) (l : list (ref * Attr))
  : list (ref * Attr) := l.

(** Modelled from the spec: hit-testing ([self.collide_point(x, y)] of
    the Widget base): the point lies within the widget's bounds. *)
Definition collide_point (s : Splitter) (p : Q * Q) : bool :=
  Qle_bool (x s) (fst p) && Qle_bool (fst p) (x s + width s)
  && Qle_bool (y s) (snd p) && Qle_bool (snd p) (y s + height s).

(** Modelled from the spec: gesture capture ([touch.grab(widget)]): the
    widget joins the owners of the gesture. *)
Definition grab (r : ref) (touch : Touch) : Touch :=
  {| pos := pos touch; dx := dx touch; dy := dy touch;
     grab_current := grab_current touch;
     grab_list := grab_list touch ++ [r] |}.

(** Modelled from the spec: explicit release ([touch.ungrab(widget)]). *)
Definition ungrab (r : ref) (touch : Touch) : Touch :=
  {| pos := pos touch; dx := dx touch; dy := dy touch;
     grab_current := grab_current touch;
     grab_list := remove_first r (grab_list touch) |}.

(** A freshly constructed strip, [self.strip_cls()], with the defaults
    the toolkit gives a new widget (the widget classes are not part of
    this file): stretch on both axes, 100 x 100, nothing bound. *)
Definition new_strip : Widget.t :=
  Widget.mk (Some 1) (Some 1) 100 100 [] [] [].

(** ** Splitter: configuration and containment *)

(** [Splitter.__init__]: no panel, no strip; the remaining attributes
    are the keyword arguments and property defaults. *)
Definition init (s : Splitter) : Splitter :=
  with__strip None (with__container None s).

(** [Splitter.on_sizable_from(self, instance, sizable_from)].  The body
    reads [self.sizable_from], not its arguments. *)
Definition on_sizable_from (w : World) : World :=
  let s := splitter w in
  match _container s with
  | None => w
  | Some _ =>
    let '(w, _strp) :=
      match _strip s with
      | Some st => (update_splitter (sup_remove_widget (_strip s)) w, st)
      | None =>
        let st := next_ref w in
        (mkWorld (with__strip (Some st) s)
                 (<[st := new_strip]> (heap w)) (S st), st)
      end in
    let sz_frm := first_char (sizable_from s) in
    let w :=
      if in_ sz_frm ["l"; "r"]%char then
        let w := update_widget _strp (Widget.with_size_hint None (Some 1)) w in
        let w := update_widget _strp (Widget.with_width (strip_size s)) w in
        let w := update_splitter (fun s => with_strip_size_observers
                   (unbind_setter (_strp, attr_width) (strip_size_observers s)) s) w in
        update_splitter (fun s => with_strip_size_observers
          (bind_ (_strp, attr_width) (strip_size_observers s)) s) w
      else
        let w := update_widget _strp (Widget.with_size_hint (Some 1) None) w in
        let w := update_widget _strp (Widget.with_height (strip_size s)) w in
        let w := update_splitter (with_orientation vertical) w in
        let w := update_splitter (fun s => with_strip_size_observers
                   (unbind_setter (_strp, attr_height) (strip_size_observers s)) s) w in
        update_splitter (fun s => with_strip_size_observers
          (bind_ (_strp, attr_height) (strip_size_observers s)) s) w in
    let index := 1%Z in
    let index := if in_ sz_frm ["r"; "b"]%char then 0%Z else index in
    let w := update_splitter (sup_add_widget _strp index) w in
    let w := update_widget _strp (fun o =>
               Widget.with_on_touch_down (unbind strip_down_m (Widget.on_touch_down o)) o) w in
    let w := update_widget _strp (fun o =>
               Widget.with_on_touch_move (unbind strip_move_m (Widget.on_touch_move o)) o) w in
    let w := update_widget _strp (fun o =>
               Widget.with_on_touch_up (unbind strip_up_m (Widget.on_touch_up o)) o) w in
    let w := update_widget _strp (fun o =>
               Widget.with_on_touch_down (bind_ strip_down_m (Widget.on_touch_down o)) o) w in
    let w := update_widget _strp (fun o =>
               Widget.with_on_touch_move (bind_ strip_move_m (Widget.on_touch_move o)) o) w in
    update_widget _strp (fun o =>
      Widget.with_on_touch_up (bind_ strip_up_m (Widget.on_touch_up o)) o) w
  end.

(** Modelled from the spec: assignment to the [sizable_from] property;
    the toolkit calls [on_sizable_from] when the value changes. *)
Definition set_sizable_from (e : Edge) (w : World) : World :=
  if decide (e = sizable_from (splitter w)) then w
  else on_sizable_from (update_splitter (with_sizable_from e) w).

(** [Splitter.add_widget(self, widget, index=0)].  [widget] is a
    reference or [None]; the refusal is an [Exception] instance that is
    returned, not raised. *)
Definition add_widget (w : World) (widget : option ref) (index : Z)
  : PyVal * World :=
  match _container (splitter w), widget with
  | None, Some wd =>
    let w := update_splitter (with__container (Some wd)) w in
    let sz_frm := first_char (sizable_from (splitter w)) in
    let w :=
      if in_ sz_frm ["l"; "r"]%char
      then update_widget wd (Widget.with_size_hint_x (Some 1)) w
      else update_widget wd (Widget.with_size_hint_y (Some 1)) w in
    let index := 0%Z in
    let index := if in_ sz_frm ["r"; "b"]%char then 1%Z else index in
    let w := update_splitter (sup_add_widget wd index) w in
    (PyNone, on_sizable_from w)
  | _, _ => (PyException "Splitter accepts only one Widget", w)
  end.

(** [Splitter.remove_widget(self, widget, *largs)] *)
Definition remove_widget (w : World) (widget : option ref) : World :=
  let w := update_splitter (sup_remove_widget widget) w in
  if is_ widget (_container (splitter w))
  then update_splitter (with__container None) w
  else w.

(** [Splitter.clear_widgets(self)] *)
Definition clear_widgets (w : World) : World :=
  remove_widget w (_container (splitter w)).

(** ** Splitter: the strip's touch handlers *)

(** [Splitter.strip_up(self, instance, touch)] *)
Definition strip_up (s : Splitter) (touch : Touch) : PyVal * Touch :=
  if negb (collide_point s (pos touch)) then (PyFalse, touch)
  else (PyNone, grab (self s) touch).

(** [Splitter.strip_down(self, instance, touch)] *)
Definition strip_down (s : Splitter) (touch : Touch) : PyVal * Touch :=
  if negb (is_ (grab_current touch) (Some (self s))) then (PyNone, touch)
  else (PyNone, ungrab (self s) touch).

(** The size hint when it is truthy: [if not self.size_hint_x] takes the
    fixed-size branch for [None] and for [0]. *)
Definition stretch_hint (h : option Q) : option Q :=
  match h with
  | Some q => if Qeq_bool q 0 then None else Some q
  | None => None
  end.

Section Layout.

(** The size the layout system reports on an axis when the handler reads
    it back after changing the size hint there, as a function of the new
    hint, the parent's extent and the size before.  The layout engine is
    not part of this file; the program's BoxLayout defers the relayout to
    the next frame, so that the handler reads back the size from before
    the move ([deferred_layout] below). *)
Variable realize : Q -> Q -> Q -> Q.

(** [Splitter.strip_move(self, instance, touch)] *)
Definition strip_move (s : Splitter) (touch : Touch)
  : result (PyVal * Splitter) :=
  if negb (is_ (grab_current touch) (_strip s)) then Ok (PyFalse, s)
  else
    let sign := 1 in
    let max_size := max_size s in
    let min_size := min_size s in
    let sz_frm := first_char (sizable_from s) in
    if in_ sz_frm ["t"; "b"]%char then
      let diff_y := dy touch in
      let sign := if Ascii.eqb sz_frm "b" then -1 else sign in
      s ← match stretch_hint (size_hint_y s) with
          | None =>
            if gt (height s) 0
            then Ok (with_height (height s + sign * diff_y) s)
            else Ok (with_height 1 s)
          | Some hint =>
            extent ← parent_extent parent_height s;
            diff ← py_div diff_y extent;
            let hint := hint + sign * diff in
            Ok (with_height (realize hint extent (height s))
                  (with_size_hint_y (Some hint) s))
          end;
      let height := height s in
      if gt height max_size then Ok (PyNone, with_height max_size s)
      else if lt height min_size then Ok (PyNone, with_height min_size s)
      else Ok (PyNone, s)
    else
      let diff_x := dx touch in
      let sign := if Ascii.eqb sz_frm "l" then -1 else sign in
      s ← match stretch_hint (size_hint_x s) with
          | None =>
            if gt (width s) 0
            then Ok (with_width (width s + sign * diff_x) s)
            else Ok (with_width 1 s)
          | Some hint =>
            extent ← parent_extent parent_width s;
            diff ← py_div diff_x extent;
            let hint := hint + sign * diff in
            Ok (with_width (realize hint extent (width s))
                  (with_size_hint_x (Some hint) s))
          end;
      let width := width s in
      if gt width max_size then Ok (PyNone, with_width max_size s)
      else if lt width min_size then Ok (PyNone, with_width min_size s)
      else Ok (PyNone, s).

(** Calling a bound method of the Splitter with [(instance, touch)]. *)
Definition call (m : Method) (s : Splitter) (touch : Touch)
  : result (PyVal * Splitter * Touch) :=
  match m with
  | strip_down_m =>
    let '(v, touch) := strip_down s touch in Ok (v, s, touch)
  | strip_move_m =>
    '(v, s) ← strip_move s touch; Ok (v, s, touch)
  | strip_up_m =>
    let '(v, touch) := strip_up s touch in Ok (v, s, touch)
  end.

(** Modelled from the spec: delivery of a touch event to the callbacks
    bound on a widget.  The callbacks run one after the other until one
    returns a truthy value; the outcome says whether the event was
    handled. *)
Fixpoint run_handlers (hs : list Method) (s : Splitter) (touch : Touch)
  : result (bool * Splitter * Touch) :=
  match hs with
  | [] => Ok (false, s, touch)
  | m :: hs =>
    '(v, s, touch) ← call m s touch;
    if truthy v then Ok (true, s, touch) else run_handlers hs s touch
  end.

Inductive TouchEvent := on_touch_down | on_touch_move | on_touch_up.

Definition bound (ev : TouchEvent) (o : Widget.t) : list Method :=
  match ev with
  | on_touch_down => Widget.on_touch_down o
  | on_touch_move => Widget.on_touch_move o
  | on_touch_up => Widget.on_touch_up o
  end.

(** Modelled from the spec: a pointer event delivered to the strip (the
    event dispatcher is not part of this file); the most recently bound
    callback runs first. *)
Definition dispatch (ev : TouchEvent) (w : World) (touch : Touch)
  : result (bool * World * Touch) :=
  match _strip (splitter w) ≫= (fun r => heap w !! r) with
  | Some strip =>
    '(handled, s, touch) ←
      run_handlers (rev (bound ev strip)) (splitter w) touch;
    Ok (handled, mkWorld s (heap w) (next_ref w), touch)
  | None => Ok (false, w, touch)
  end.

End Layout.

(** The layout behaviour of the program. *)
Definition deferred_layout (hint extent size : Q) : Q := size.

(** A drag session: the move events of one gesture, delivered to
    [strip_move] one after the other. *)
Fixpoint move_all (realize : Q -> Q -> Q -> Q) (s : Splitter)
  (touches : list Touch) : result Splitter :=
  match touches with
  | [] => Ok s
  | touch :: touches =>
    '(_, s) ← strip_move realize s touch; move_all realize s touches
  end.

(** ** Vocabulary of the specification *)

(** The size on the resize axis selected by [sizable_from]: the height
    for the edges top and bottom, the width for left and right. *)
Definition active_size (s : Splitter) : Q :=
  match sizable_from s with
  | from_top | from_bottom => height s
  | from_left | from_right => width s
  end.

Definition active_hint (s : Splitter) : option Q :=
  match sizable_from s with
  | from_top | from_bottom => size_hint_y s
  | from_left | from_right => size_hint_x s
  end.

(** The touch delta along the resize axis. *)
Definition active_delta (s : Splitter) (touch : Touch) : Q :=
  match sizable_from s with
  | from_top | from_bottom => dy touch
  | from_left | from_right => dx touch
  end.

Definition active_extent (e : Edge) (p : Parent) : Q :=
  match e with
  | from_top | from_bottom => parent_height p
  | from_left | from_right => parent_width p
  end.

(** The sign of the drag response: [-1] for left and bottom, [+1] for
    right and top. *)
Definition drag_sign (e : Edge) : Q :=
  match e with
  | from_left | from_bottom => -1
  | from_right | from_top => 1
  end.

(** The capture check of [strip_move] passes. *)
Definition handled_move (s : Splitter) (touch : Touch) : Prop :=
  is_ (grab_current touch) (_strip s) = true.

(** Fixed-size mode on the resize axis: the size hint there is unset or 0. *)
Definition fixed_mode (s : Splitter) : Prop :=
  stretch_hint (active_hint s) = None.

(** Clamping a size into [[min_size, max_size]]. *)
Definition clamp_size (size min_size max_size : Q) : Q :=
  if gt size max_size then max_size
  else if lt size min_size then min_size
  else size.

(** Assignment to the size, and to the size hint, on the resize axis. *)
Definition set_active_size (v : Q) (s : Splitter) : Splitter :=
  match sizable_from s with
  | from_top | from_bottom => with_height v s
  | from_left | from_right => with_width v s
  end.

Definition set_active_hint (h : option Q) (s : Splitter) : Splitter :=
  match sizable_from s with
  | from_top | from_bottom => with_size_hint_y h s
  | from_left | from_right => with_size_hint_x h s
  end.

(** The drag update as the specification words it, before the clamp:
    in fixed-size mode add [sign * delta] to a positive size and set a
    non-positive size to 1; in stretch mode add [sign * (delta /
    parentExtent)] to the size-hint fraction. *)
Definition drag_update (realize : Q -> Q -> Q -> Q) (s : Splitter)
  (touch : Touch) : result Splitter :=
  let sign := drag_sign (sizable_from s) in
  let delta := active_delta s touch in
  match stretch_hint (active_hint s) with
  | None =>
    if gt (active_size s) 0
    then Ok (set_active_size (active_size s + sign * delta) s)
    else Ok (set_active_size 1 s)
  | Some hint =>
    match parent s with
    | None => Raise AttributeError
    | Some p =>
      let extent := active_extent (sizable_from s) p in
      if Qeq_bool extent 0 then Raise ZeroDivisionError
      else
        let hint := hint + sign * (delta / extent) in
        Ok (set_active_size (realize hint extent (active_size s))
              (set_active_hint (Some hint) s))
    end
  end.

(** The clamp of the size on the resize axis; the constraints are read,
    never written. *)
Definition clamp_active (s : Splitter) : Splitter :=
  if gt (active_size s) (max_size s) then set_active_size (max_size s) s
  else if lt (active_size s) (min_size s) then set_active_size (min_size s) s
  else s.

(** The size a fixed-mode drag asks for, before the clamp; the clamp is
    not binding when that size already lies within the constraints. *)
Definition dragged_size (s : Splitter) (touch : Touch) : Q :=
  active_size s + drag_sign (sizable_from s) * active_delta s touch.

Definition clamp_not_binding (s : Splitter) (touch : Touch) : Prop :=
  min_size s <= dragged_size s touch <= max_size s.


(** The reading of "a non-positive size is never left at 0" on the state
    the handler returns. *)
Definition never_left_at_zero (realize : Q -> Q -> Q -> Q) (s : Splitter)
  (touch : Touch) : Prop :=
  handled_move s touch -> fixed_mode s -> active_size s <= 0 ->
  forall v s', strip_move realize s touch = Ok (v, s') ->
  ~ active_size s' == 0.

(** Where the panel and the strip go in the child list. *)
Definition panel_index (e : Edge) : nat :=
  match e with
  | from_left | from_top => 0%nat
  | from_right | from_bottom => 1%nat
  end.

Definition strip_index (e : Edge) : Z :=
  match e with
  | from_right | from_bottom => 0%Z
  | from_left | from_top => 1%Z
  end.

(** The reading of "the strip is destroyed and rebuilt whenever
    [sizable_from] changes, the panel persists": after the change the
    strip is another object than before, the panel the same. *)
Definition strip_rebuilt (w : World) (e : Edge) : Prop :=
  is_Some (_container (splitter w)) ->
  e <> sizable_from (splitter w) ->
  let w' := set_sizable_from e w in
  _strip (splitter w') <> _strip (splitter w)
  /\ _container (splitter w') = _container (splitter w).

(** ** Scenarios

    Object references in the scenarios: the Splitter is [0], the managed
    panel [1], a second widget [2]; the strip, constructed when the panel
    is added, is [3]. *)

(** A widget built with [size_hint=(None, None)], 100 x 100. *)
Definition panel : Widget.t := Widget.mk None None 100 100 [] [] [].

Definition window : Parent := {| parent_width := 1000; parent_height := 600 |}.

(** [Splitter(sizable_from=e, min_size=lo, max_size=hi, size_hint=(hx,
    hy), size=(w, h))] at the origin of [parent], before any panel is
    added. *)
Definition new_splitter (e : Edge) (lo hi : Q) (hx hy : option Q) (w h : Q)
  (parent : option Parent) : World :=
  mkWorld
    (init (mkSplitter 0%nat e 10 lo hi None None [] horizontal hx hy 0 0 w h
             parent []))
    {[ 1%nat := panel; 2%nat := panel ]} 3%nat.

(** The same after [add_widget(panel)]. *)
Definition with_panel (w : World) : World :=
  snd (add_widget w (Some 1%nat) 0%Z).

(** A touch that the strip has grabbed, moved by [(dx, dy)]. *)
Definition drag (dx dy : Q) : Touch :=
  {| pos := (5, 50); dx := dx; dy := dy;
     grab_current := Some 3%nat; grab_list := [3%nat] |}.

(** [min_size=100, max_size=250, sizable_from='right'], width 150 under
    a stretch hint, in a parent 1000 wide. *)
Definition stretch_right (hint : Q) : Splitter :=
  splitter (with_panel
    (new_splitter from_right 100 250 (Some hint) (Some 1) 150 100
       (Some window))).

(** [sizable_from='left'], fixed-size mode, width 0. *)
Definition zero_left (lo hi : Q) : Splitter :=
  splitter (with_panel
    (new_splitter from_left lo hi None (Some 1) 0 100 (Some window))).

(** [sizable_from=e], fixed-size mode on both axes, 150 x 150 within
    [[100, 250]]. *)
Definition fixed_150 (e : Edge) : Splitter :=
  splitter (with_panel
    (new_splitter e 100 250 None None 150 150 (Some window))).

(** A stretch-mode Splitter whose parent is [parent]. *)
Definition stretch_in (parent : option Parent) : Splitter :=
  splitter (with_panel
    (new_splitter from_right 100 250 (Some (1 # 4)) (Some 1) 150 100 parent)).

(** A Splitter 150 x 100 at the origin, resizable from the left, with
    its panel; the point (5, 50) lies within its bounds. *)
Definition left_150 : World :=
  with_panel (new_splitter from_left 100 250 None (Some 1) 150 100
                (Some window)).

(** A pointer-down that nobody has grabbed yet. *)
Definition fresh_touch : Touch :=
  {| pos := (5, 50); dx := 0; dy := 0;
     grab_current := None; grab_list := [] |}.

(** A pointer-up of a gesture whose capture owner is the Splitter. *)
Definition owned_touch : Touch :=
  {| pos := (5, 50); dx := 0; dy := 0;
     grab_current := Some 0%nat; grab_list := [0%nat] |}.

(** ** Further vocabulary and scenarios *)

(** The size a handled fixed-mode move writes before the clamp. *)
Definition fixed_target (s : Splitter) (touch : Touch) : Q :=
  if gt (active_size s) 0 then dragged_size s touch else 1.

(** The setter that [on_sizable_from] subscribes to [strip_size]. *)
Definition attr_for (e : Edge) : Attr :=
  match e with
  | from_left | from_right => attr_width
  | from_top | from_bottom => attr_height
  end.

(** The child list with the panel [c] and the strip [st] in place for
    the edge. *)
Definition children_for (e : Edge) (c st : ref) : list ref :=
  match e with
  | from_left | from_top => [c; st]
  | from_right | from_bottom => [st; c]
  end.

(** Each of the three handlers is bound to its event exactly once, and
    nothing else is. *)
Definition bound_once (o : Widget.t) : Prop :=
  Widget.on_touch_down o = [strip_down_m]
  /\ Widget.on_touch_move o = [strip_move_m]
  /\ Widget.on_touch_up o = [strip_up_m].

(** The strip that [on_sizable_from] works on: the one in place, or the
    next object the allocator hands out. *)
Definition strip_ref (w : World) : ref :=
  default (next_ref w) (_strip (splitter w)).

(** The strip object of a world, if the Splitter has one. *)
Definition strip_widget (w : World) : option Widget.t :=
  _strip (splitter w) ≫= (fun r => heap w !! r).

(** What [on_sizable_from] writes to the strip: the size hint and the
    fixed dimension for the edge, ... *)
Definition sized_for (e : Edge) (size : Q) (o : Widget.t) : Widget.t :=
  match e with
  | from_left | from_right =>
    Widget.with_width size (Widget.with_size_hint None (Some 1) o)
  | from_top | from_bottom =>
    Widget.with_height size (Widget.with_size_hint (Some 1) None o)
  end.

(** ... and the three handlers, each unbound once and bound again. *)
Definition rebound (o : Widget.t) : Widget.t :=
  Widget.mk (Widget.size_hint_x o) (Widget.size_hint_y o)
    (Widget.width o) (Widget.height o)
    (bind_ strip_down_m (unbind strip_down_m (Widget.on_touch_down o)))
    (bind_ strip_move_m (unbind strip_move_m (Widget.on_touch_move o)))
    (bind_ strip_up_m (unbind strip_up_m (Widget.on_touch_up o))).

(** A fixed-size Splitter that has no parent. *)
Definition orphan_fixed : Splitter :=
  splitter (with_panel (new_splitter from_top 100 250 None None 150 150 None)).

(** [min_size=250, max_size=100]: the constraints are the wrong way
    round. *)
Definition inverted : Splitter :=
  splitter (with_panel
    (new_splitter from_right 250 100 None None 150 150 (Some window))).

(** ** Facts about the numbers *)

Lemma gt_true a b : gt a b = true <-> b < a.
Proof.
  unfold gt. rewrite negb_true_iff, <- not_true_iff_false, Qle_bool_iff.
  split; [apply Qnot_le_lt | apply Qlt_not_le].
Qed.

Lemma gt_false a b : gt a b = false <-> a <= b.
Proof. unfold gt. rewrite negb_false_iff. apply Qle_bool_iff. Qed.

Lemma lt_true a b : lt a b = true <-> a < b.
Proof. unfold lt. apply gt_true. Qed.

Lemma lt_false a b : lt a b = false <-> b <= a.
Proof. unfold lt. apply gt_false. Qed.

Ltac reflect_cmp :=
  repeat match goal with
  | H : gt _ _ = true |- _ => apply gt_true in H
  | H : gt _ _ = false |- _ => apply gt_false in H
  | H : lt _ _ = true |- _ => apply lt_true in H
  | H : lt _ _ = false |- _ => apply lt_false in H
  end.

Lemma clamp_size_bounds (v lo hi : Q) :
  lo <= hi -> lo <= clamp_size v lo hi <= hi.
Proof.
  intros Hle. unfold clamp_size.
  destruct (gt v hi) eqn:Hhi; [split; lra|].
  destruct (lt v lo) eqn:Hlo; reflect_cmp; split; lra.
Qed.

Lemma Qeq_bool_false a b : Qeq_bool a b = false <-> ~ a == b.
Proof. rewrite <- not_true_iff_false, Qeq_bool_iff. reflexivity. Qed.

Lemma clamp_size_one_zero (lo hi : Q) :
  clamp_size 1 lo hi == 0 <-> hi == 0.
Proof.
  unfold clamp_size.
  destruct (gt 1 hi) eqn:Hhi; [reflexivity|].
  destruct (lt 1 lo) eqn:Hlo; reflect_cmp; split; intros H; lra.
Qed.

Lemma remove_first_eq {A} `{EqDecision A} (a : A) (l : list A) :
  remove_first a (a :: l) = l.
Proof. cbn. now destruct (decide (a = a)). Qed.

Lemma remove_first_ne {A} `{EqDecision A} (a b : A) (l : list A) :
  a <> b -> remove_first a (b :: l) = b :: remove_first a l.
Proof. intros Hne. cbn. now destruct (decide (a = b)). Qed.

Lemma elem_of_remove_first {A} `{EqDecision A} (a r : A) (l : list A) :
  r ∈ remove_first a l -> r ∈ l.
Proof.
  induction l as [|b l IH]; cbn; [trivial|].
  destruct (decide (a = b)).
  - intros Hin. now right.
  - intros [->|Hin]%elem_of_cons; [left | right; auto].
Qed.

(** ** Assignments on the resize axis *)

Lemma active_size_set (v : Q) (s : Splitter) :
  active_size (set_active_size v s) = v.
Proof. unfold active_size, set_active_size. now destruct s as [? []]. Qed.

Lemma set_active_size_frame (v : Q) (s : Splitter) :
  let s' := set_active_size v s in
  sizable_from s' = sizable_from s /\ min_size s' = min_size s
  /\ max_size s' = max_size s /\ active_hint s' = active_hint s.
Proof.
  unfold set_active_size, active_hint. now destruct s as [? []].
Qed.

Lemma set_active_hint_frame (h : option Q) (s : Splitter) :
  let s' := set_active_hint h s in
  sizable_from s' = sizable_from s /\ min_size s' = min_size s
  /\ max_size s' = max_size s /\ active_size s' = active_size s
  /\ active_hint s' = h.
Proof.
  unfold set_active_hint, active_hint, active_size. now destruct s as [? []].
Qed.

Lemma set_active_size_strip (v : Q) (s : Splitter) :
  _strip (set_active_size v s) = _strip s.
Proof. unfold set_active_size. now destruct s as [? []]. Qed.

Lemma set_active_hint_strip (h : option Q) (s : Splitter) :
  _strip (set_active_hint h s) = _strip s.
Proof. unfold set_active_hint. now destruct s as [? []]. Qed.

Lemma clamp_active_spec (s : Splitter) :
  let s' := clamp_active s in
  active_size s' = clamp_size (active_size s) (min_size s) (max_size s)
  /\ sizable_from s' = sizable_from s /\ min_size s' = min_size s
  /\ max_size s' = max_size s /\ active_hint s' = active_hint s.
Proof.
  unfold clamp_active, clamp_size. cbv zeta.
  destruct (gt _ _); [|destruct (lt _ _)];
    rewrite ?active_size_set; repeat split;
    try apply set_active_size_frame.
Qed.

Lemma drag_update_frame realize (s s1 : Splitter) (touch : Touch) :
  drag_update realize s touch = Ok s1 ->
  sizable_from s1 = sizable_from s /\ min_size s1 = min_size s
  /\ max_size s1 = max_size s.
Proof.
  unfold drag_update.
  destruct (stretch_hint _) as [hint|].
  - destruct (parent s) as [p|]; [|discriminate].
    destruct (Qeq_bool _ 0); [discriminate|].
    intros [= <-].
    destruct (set_active_size_frame
      (realize (hint + drag_sign (sizable_from s) *
                  (active_delta s touch / active_extent (sizable_from s) p))
         (active_extent (sizable_from s) p) (active_size s))
      (set_active_hint (Some (hint + drag_sign (sizable_from s) *
         (active_delta s touch / active_extent (sizable_from s) p))) s))
      as (-> & -> & -> & _).
    repeat split; apply set_active_hint_frame.
  - destruct (gt _ 0); intros [= <-]; repeat split;
      apply set_active_size_frame.
Qed.

(** ** The drag handler, step by step *)

Section Drag.

Variable realize : Q -> Q -> Q -> Q.

(** A move that fails the capture check is declined and changes nothing. *)
Lemma strip_move_declined (s : Splitter) (touch : Touch) :
  is_ (grab_current touch) (_strip s) = false ->
  strip_move realize s touch = Ok (PyFalse, s).
Proof. intros H. unfold strip_move. now rewrite H. Qed.

(** A handled move is the drag update on the resize axis followed by
    the clamp. *)
Lemma strip_move_handled (s : Splitter) (touch : Touch) :
  handled_move s touch ->
  strip_move realize s touch =
  (s1 ← drag_update realize s touch; Ok (PyNone, clamp_active s1)).
Proof.
  unfold handled_move, strip_move, drag_update. intros ->.
  destruct s as [sf e ss mn mx c st ch o hx hy px py wd ht pa ob].
  destruct e; cbn -[gt lt Qplus Qmult Qdiv Qeq_bool];
    (destruct (stretch_hint _) as [hint|];
     [ destruct pa as [p|]; [|reflexivity];
       cbn -[gt lt Qplus Qmult Qdiv Qeq_bool]; unfold py_div;
       destruct (Qeq_bool _ 0); [reflexivity|]
     | destruct (gt _ 0) ];
     cbn -[gt lt Qplus Qmult Qdiv Qeq_bool]; unfold clamp_active;
     cbn -[gt lt Qplus Qmult Qdiv Qeq_bool];
     repeat (destruct (gt _ _) || destruct (lt _ _)); reflexivity).
Qed.

Lemma clamp_active_in_bounds (s : Splitter) :
  min_size s <= max_size s ->
  min_size s <= active_size (clamp_active s) <= max_size s.
Proof.
  intros Hle. destruct (clamp_active_spec s) as (-> & _).
  now apply clamp_size_bounds.
Qed.

(** What no move touches: the strip, the edge and the constraints. *)
Lemma strip_move_frame (s : Splitter) (touch : Touch) (v : PyVal)
  (s' : Splitter) :
  strip_move realize s touch = Ok (v, s') ->
  _strip s' = _strip s /\ sizable_from s' = sizable_from s
  /\ min_size s' = min_size s /\ max_size s' = max_size s.
Proof.
  destruct (is_ (grab_current touch) (_strip s)) eqn:Hgrab.
  - rewrite (strip_move_handled s touch Hgrab).
    destruct (drag_update realize s touch) as [s1|err] eqn:Hupd;
      [|discriminate].
    intros [= _ <-].
    destruct (drag_update_frame realize s s1 touch Hupd) as (He & Hlo & Hhi).
    destruct (clamp_active_spec s1) as (_ & -> & -> & -> & _).
    repeat split; try assumption.
    transitivity (_strip s1).
    + unfold clamp_active.
      destruct (gt (active_size s1) (max_size s1));
        [|destruct (lt (active_size s1) (min_size s1))];
        now rewrite ?set_active_size_strip.
    + revert Hupd. unfold drag_update.
      destruct (stretch_hint (active_hint s));
        [destruct (parent s); [destruct (Qeq_bool _ 0)|]
        |destruct (gt (active_size s) 0)];
        (intros [= <-] || discriminate);
        now rewrite ?set_active_size_strip, ?set_active_hint_strip.
  - rewrite (strip_move_declined s touch Hgrab).
    intros [= _ <-]. repeat split.
Qed.

(** C1.  After every handled move, with [min_size <= max_size], the size
    on the resize axis lies in [[min_size, max_size]], and the clamp has
    changed neither [min_size] nor [max_size]. *)
Theorem strip_move_clamps (s : Splitter) (touch : Touch) (v : PyVal)
  (s' : Splitter) :
  handled_move s touch ->
  min_size s <= max_size s ->
  strip_move realize s touch = Ok (v, s') ->
  min_size s' <= active_size s' <= max_size s'
  /\ min_size s' = min_size s /\ max_size s' = max_size s.
Proof.
  intros Hgrab Hle. rewrite (strip_move_handled s touch Hgrab).
  destruct (drag_update realize s touch) as [s1|err] eqn:Hupd;
    [|discriminate].
  intros [= _ <-].
  destruct (drag_update_frame realize s s1 touch Hupd) as (_ & Hmin & Hmax).
  destruct (clamp_active_spec s1) as (_ & _ & Hmin' & Hmax' & _).
  rewrite Hmin', Hmax'. split; [|split; assumption].
  apply clamp_active_in_bounds. now rewrite Hmin, Hmax.
Qed.

(** The same along a whole drag session: however many handled moves
    follow one another, the size ends within the constraints. *)
Lemma move_all_clamped (touches : list Touch) (s s' : Splitter) :
  touches <> [] ->
  Forall (handled_move s) touches ->
  min_size s <= max_size s ->
  move_all realize s touches = Ok s' ->
  min_size s <= active_size s' <= max_size s.
Proof.
  revert s. induction touches as [|touch touches IH]; [congruence|].
  intros s _ Hall Hle. inversion_clear Hall as [|? ? Hgrab Hrest]. cbn.
  destruct (strip_move realize s touch) as [[v s1]|err] eqn:Hrun;
    [|discriminate].
  cbn. destruct (strip_move_frame s touch v s1 Hrun)
    as (Hst & _ & Hlo & Hhi).
  destruct touches as [|touch' touches].
  - intros [= <-]. revert Hrun.
    rewrite (strip_move_handled s touch Hgrab).
    destruct (drag_update realize s touch) as [s2|] eqn:Hupd;
      [|discriminate].
    intros [= _ <-].
    destruct (drag_update_frame realize s s2 touch Hupd) as (_ & Hlo2 & Hhi2).
    rewrite <- Hlo2, <- Hhi2. apply clamp_active_in_bounds.
    now rewrite Hlo2, Hhi2.
  - intros Hrest'. rewrite <- Hlo, <- Hhi.
    apply IH; [discriminate | | now rewrite Hlo, Hhi | exact Hrest'].
    eapply Forall_impl; [exact Hrest|].
    unfold handled_move. intros t Ht. now rewrite Hst.
Qed.

(** C4.  In fixed-size mode with a positive size and the clamp not
    binding, a handled move adds [sign * delta] to the size: a positive
    [dx] widens the Splitter from the right edge and narrows it from the
    left edge, a positive [dy] heightens it from the top edge and lowers
    it from the bottom edge. *)
Theorem drag_direction (s : Splitter) (touch : Touch) :
  handled_move s touch ->
  fixed_mode s ->
  0 < active_size s ->
  clamp_not_binding s touch ->
  exists s', strip_move realize s touch = Ok (PyNone, s')
    /\ active_size s' = dragged_size s touch
    /\ (sizable_from s = from_right -> 0 < dx touch -> width s < width s')
    /\ (sizable_from s = from_left -> 0 < dx touch -> width s' < width s)
    /\ (sizable_from s = from_top -> 0 < dy touch -> height s < height s')
    /\ (sizable_from s = from_bottom -> 0 < dy touch ->
          height s' < height s).
Proof.
  intros Hgrab Hfixed Hpos [Hlo Hhi].
  rewrite (strip_move_handled s touch Hgrab).
  unfold drag_update. rewrite Hfixed.
  apply gt_true in Hpos. rewrite Hpos. apply gt_true in Hpos.
  fold (dragged_size s touch).
  exists (set_active_size (dragged_size s touch) s).
  assert (Hclamp : clamp_active (set_active_size (dragged_size s touch) s)
                   = set_active_size (dragged_size s touch) s).
  { unfold clamp_active. rewrite active_size_set.
    destruct (set_active_size_frame (dragged_size s touch) s)
      as (_ & -> & -> & _).
    apply gt_false in Hhi. apply lt_false in Hlo. now rewrite Hhi, Hlo. }
  cbn [mbind result_bind]. rewrite Hclamp.
  split; [reflexivity|]. split; [apply active_size_set|].
  unfold dragged_size, active_size, active_delta, set_active_size in *.
  destruct s as [sf e ss mn mx c st ch o hx hy px py wd ht pa ob].
  cbn in *.
  repeat split; intros ->; cbn; intros Hd; lra.
Qed.

(** C6, as amended.  In fixed-size mode a handled move on a non-positive
    size sets the size to 1, whatever the delta, and then clamps it: the
    size after the handler is 1 clamped to [[min_size, max_size]], which
    is 0 exactly when [max_size] is 0. *)
Theorem snap_then_clamp (s : Splitter) (touch : Touch) :
  handled_move s touch ->
  fixed_mode s ->
  active_size s <= 0 ->
  strip_move realize s touch
    = Ok (PyNone, clamp_active (set_active_size 1 s))
  /\ active_size (clamp_active (set_active_size 1 s))
     = clamp_size 1 (min_size s) (max_size s)
  /\ (active_size (clamp_active (set_active_size 1 s)) == 0
      <-> max_size s == 0).
Proof.
  intros Hgrab Hfixed Hneg.
  rewrite (strip_move_handled s touch Hgrab).
  unfold drag_update. rewrite Hfixed.
  apply gt_false in Hneg. rewrite Hneg. cbn [mbind result_bind].
  split; [reflexivity|].
  destruct (clamp_active_spec (set_active_size 1 s)) as (-> & _).
  rewrite active_size_set.
  destruct (set_active_size_frame 1 s) as (_ & -> & -> & _).
  split; [reflexivity | apply clamp_size_one_zero].
Qed.

(** C10.  In stretch mode a handled move divides by the parent's extent
    on the resize axis without a guard: it returns exactly when the
    Splitter has a parent whose extent there is not 0; an extent of 0
    raises the division error, and a missing parent the attribute
    error. *)
Theorem stretch_needs_parent_extent (s : Splitter) (touch : Touch)
  (hint : Q) :
  handled_move s touch ->
  stretch_hint (active_hint s) = Some hint ->
  ((exists v s', strip_move realize s touch = Ok (v, s'))
   <-> (exists p, parent s = Some p
                  /\ ~ active_extent (sizable_from s) p == 0))
  /\ (forall p, parent s = Some p ->
        active_extent (sizable_from s) p == 0 ->
        strip_move realize s touch = Raise ZeroDivisionError)
  /\ (parent s = None -> strip_move realize s touch = Raise AttributeError).
Proof.
  intros Hgrab Hhint.
  rewrite (strip_move_handled s touch Hgrab).
  unfold drag_update. rewrite Hhint.
  destruct (parent s) as [p|].
  - destruct (Qeq_bool (active_extent (sizable_from s) p) 0) eqn:Hz.
    + apply Qeq_bool_iff in Hz. repeat split.
      * intros (v & s' & H). discriminate H.
      * intros (p' & [= <-] & Hnz). contradiction.
      * discriminate.
    + apply Qeq_bool_false in Hz. repeat split.
      * intros _. exists p. now split.
      * intros _. cbn [mbind result_bind]. eauto.
      * intros p' [= <-] Hzero. contradiction.
      * discriminate.
  - repeat split.
    + intros (v & s' & H). discriminate H.
    + intros (p & H & _). discriminate H.
    + discriminate.
Qed.

End Drag.


Example strip_move_clamps_witness :
  min_size (with_width 250 (fixed_150 from_right))
    <= active_size (with_width 250 (fixed_150 from_right))
    <= max_size (with_width 250 (fixed_150 from_right))
  /\ min_size (with_width 250 (fixed_150 from_right))
      = min_size (fixed_150 from_right)
  /\ max_size (with_width 250 (fixed_150 from_right))
      = max_size (fixed_150 from_right).
Proof.
  apply (strip_move_clamps deferred_layout (fixed_150 from_right)
           (drag 200 0) PyNone);
    [vm_compute; reflexivity | vm_compute; discriminate
    | vm_compute; reflexivity].
Defined.


Example drag_direction_witness :
  exists s', strip_move deferred_layout (fixed_150 from_left) (drag 20 0)
             = Ok (PyNone, s')
    /\ width s' < width (fixed_150 from_left).
Proof.
  destruct (drag_direction deferred_layout (fixed_150 from_left) (drag 20 0))
    as (s' & Hrun & _ & _ & Hleft & _);
    [reflexivity | reflexivity | reflexivity
    | split; vm_compute; discriminate |].
  exists s'. split; [exact Hrun | apply Hleft; reflexivity].
Defined.



(** C6 as stated fails when [max_size] is 0: the snapped size 1 exceeds
    [max_size], and the clamp puts the width back to 0. *)
Example snap_left_at_zero :
  ~ never_left_at_zero deferred_layout (zero_left 0 0) (drag 5 0).
Proof.
  intros H.
  apply (H eq_refl eq_refl ltac:(discriminate) PyNone
           (with_width 0 (zero_left 0 0)) eq_refl).
  reflexivity.
Qed.

Example snap_then_clamp_witness :
  strip_move deferred_layout (zero_left 100 250) (drag 5 0)
    = Ok (PyNone, clamp_active (set_active_size 1 (zero_left 100 250)))
  /\ active_size (clamp_active (set_active_size 1 (zero_left 100 250)))
     = clamp_size 1 100 250
  /\ (active_size (clamp_active (set_active_size 1 (zero_left 100 250))) == 0
      <-> 250 == 0).
Proof.
  apply (snap_then_clamp deferred_layout (zero_left 100 250) (drag 5 0));
    [reflexivity | reflexivity | discriminate].
Defined.

Example stretch_needs_parent_extent_witness :
  strip_move deferred_layout
    (stretch_in (Some {| parent_width := 0; parent_height := 600 |}))
    (drag 5 0)
  = Raise ZeroDivisionError.
Proof.
  destruct (stretch_needs_parent_extent deferred_layout
              (stretch_in (Some {| parent_width := 0; parent_height := 600 |}))
              (drag 5 0) (1 # 4) eq_refl eq_refl) as (_ & Hzero & _).
  apply (Hzero {| parent_width := 0; parent_height := 600 |});
    reflexivity.
Defined.

(** ** Containment and edge switching *)

(** What [on_sizable_from] does once a panel is attached: the strip in
    place is taken out of the child list and put back at the index of
    the edge; only when there is none is a strip constructed. *)
Lemma on_sizable_from_attached (w : World) (c : ref) :
  _container (splitter w) = Some c ->
  let e := sizable_from (splitter w) in
  let st := default (next_ref w) (_strip (splitter w)) in
  let w' := on_sizable_from w in
  _strip (splitter w') = Some st
  /\ _container (splitter w') = Some c
  /\ sizable_from (splitter w') = e
  /\ children (splitter w')
     = list_insert_at (strip_index e) st
         (children (sup_remove_widget (_strip (splitter w)) (splitter w)))
  /\ next_ref w'
     = (if _strip (splitter w) is Some _ then next_ref w
        else S (next_ref w))
  /\ (forall r, r <> st -> heap w' !! r = heap w !! r).
Proof.
  intros Hc. unfold on_sizable_from. rewrite Hc.
  destruct w as [s hp nx].
  destruct s as [sf e ss mn mx c' st ch o hx hy px py wd ht pa ob].
  cbn in Hc. subst c'.
  destruct st as [st|]; destruct e; cbn;
    repeat split; intros r Hr;
    rewrite ?lookup_alter_ne by congruence;
    rewrite ?lookup_insert_ne by congruence; reflexivity.
Qed.

Lemma on_sizable_from_dom (w : World) (c st : ref) :
  _container (splitter w) = Some c ->
  _strip (splitter w) = Some st ->
  dom (heap (on_sizable_from w)) = dom (heap w).
Proof.
  intros Hc Hst. unfold on_sizable_from. rewrite Hc, Hst.
  destruct (in_ _ ["l"; "r"]%char); cbn;
    apply leibniz_equiv; rewrite !dom_alter; reflexivity.
Qed.

(** C7.  [add_widget] with a panel already attached, or with no widget,
    hands back an exception and leaves everything as it was: the panel
    reference, the child list and its first child included. *)
Theorem add_widget_refused (w : World) (widget : option ref) (index : Z) :
  is_Some (_container (splitter w)) \/ widget = None ->
  (exists msg, add_widget w widget index = (PyException msg, w))
  /\ _container (splitter (snd (add_widget w widget index)))
     = _container (splitter w)
  /\ children (splitter (snd (add_widget w widget index)))
     = children (splitter w)
  /\ head (children (splitter (snd (add_widget w widget index))))
     = head (children (splitter w)).
Proof.
  intros H.
  assert (Hret : add_widget w widget index
                 = (PyException "Splitter accepts only one Widget", w)).
  { unfold add_widget. destruct H as [[c Hc] | ->].
    - now rewrite Hc.
    - now destruct (_container (splitter w)). }
  rewrite Hret. split; [eauto|]. repeat split.
Qed.

(** C8, as amended.  When [sizable_from] changes while a panel is
    attached and a strip exists, the strip is taken out of the child
    list and put back at the index of the new edge as the same object:
    no strip is constructed.  The panel stays the same object and its
    attributes, size hints included, are left as they were. *)
Theorem sizable_from_change_reuses_strip (w : World) (e : Edge)
  (c st : ref) :
  _container (splitter w) = Some c ->
  _strip (splitter w) = Some st ->
  e <> sizable_from (splitter w) ->
  c <> st ->
  let w' := set_sizable_from e w in
  sizable_from (splitter w') = e
  /\ _strip (splitter w') = Some st
  /\ next_ref w' = next_ref w
  /\ dom (heap w') = dom (heap w)
  /\ children (splitter w')
     = list_insert_at (strip_index e) st
         (remove_first st (children (splitter w)))
  /\ _container (splitter w') = Some c
  /\ heap w' !! c = heap w !! c.
Proof.
  intros Hc Hst Hne Hcst. unfold set_sizable_from.
  destruct (decide (e = sizable_from (splitter w))) as [|_]; [contradiction|].
  set (w1 := update_splitter (with_sizable_from e) w).
  assert (Hc1 : _container (splitter w1) = Some c) by exact Hc.
  assert (Hst1 : _strip (splitter w1) = Some st) by exact Hst.
  destruct (on_sizable_from_attached w1 c Hc1)
    as (Hs & Hc' & He & Hch & Hnx & Hheap).
  rewrite Hst1 in Hs, Hch, Hnx. cbn in Hs, Hch, Hnx, He.
  cbv zeta. repeat split; try assumption.
  - exact (on_sizable_from_dom w1 c st Hc1 Hst1).
  - apply (Hheap c). rewrite Hst1. exact Hcst.
Qed.

(** C9.  A successful [add_widget(widget, i)] does not depend on [i].
    Where the child list holds nothing but the strip, as it does whenever
    no panel is attached, the panel ends at index 0 of the child list for
    the edges left and top, and at index 1 for right and bottom. *)
Theorem add_widget_index_ignored (w : World) (wd : ref) (i j : Z) :
  _container (splitter w) = None ->
  add_widget w (Some wd) i = add_widget w (Some wd) j
  /\ fst (add_widget w (Some wd) i) = PyNone
  /\ _container (splitter (snd (add_widget w (Some wd) i))) = Some wd
  /\ ((forall c, c ∈ children (splitter w) -> _strip (splitter w) = Some c) ->
      _strip (splitter w) <> Some wd ->
      children (splitter (snd (add_widget w (Some wd) i)))
        !! panel_index (sizable_from (splitter w)) = Some wd).
Proof.
  intros Hc. unfold add_widget. rewrite Hc.
  split; [reflexivity|]. split; [reflexivity|].
  match goal with |- context [on_sizable_from ?w0] => set (w1 := w0) end.
  assert (Hc1 : _container (splitter w1) = Some wd).
  { unfold w1. now destruct (in_ _ ["l"; "r"]%char),
      (in_ _ ["r"; "b"]%char). }
  destruct (on_sizable_from_attached w1 wd Hc1)
    as (_ & Hc' & _ & Hch' & _).
  split; [exact Hc'|]. intros Hch Hne.
  cbn [snd]. rewrite Hch'. clear Hch' Hc' Hc1.
  subst w1. destruct w as [s hp nx].
  destruct s as [sf e ss mn mx c' st ch o hx hy px py wd' ht pa ob].
  cbn in Hc, Hch, Hne. subst c'.
  destruct ch as [|c ch].
  - destruct st as [st|], e; cbn -[remove_first];
      change (Z.to_nat 0) with 0%nat; change (Z.to_nat 1) with 1%nat;
      cbn -[remove_first];
      rewrite ?remove_first_ne by congruence; reflexivity.
  - assert (Hst : st = Some c) by (apply Hch; left).
    subst st. assert (c <> wd) by congruence.
    destruct e; cbn -[remove_first];
      change (Z.to_nat 0) with 0%nat; change (Z.to_nat 1) with 1%nat;
      cbn -[remove_first];
      rewrite ?remove_first_ne, ?remove_first_eq by congruence;
      reflexivity.
Qed.

Example add_widget_refused_witness :
  is_Some (_container (splitter left_150))
  /\ exists msg,
       add_widget left_150 (Some 2%nat) 0 = (PyException msg, left_150).
Proof.
  assert (H : is_Some (_container (splitter left_150)))
    by (eexists; reflexivity).
  split; [exact H|].
  apply (add_widget_refused left_150 (Some 2%nat) 0 (or_introl H)).
Defined.

(** C8 as stated fails: after [sizable_from] goes from left to bottom the
    strip is the object it was before. *)
Example strip_not_rebuilt : ~ strip_rebuilt left_150 from_bottom.
Proof.
  intros H. destruct H as [Hstrip _].
  - eexists; reflexivity.
  - discriminate.
  - apply Hstrip. vm_compute. reflexivity.
Qed.

Example sizable_from_change_reuses_strip_witness :
  _strip (splitter (set_sizable_from from_bottom left_150)) = Some 3%nat
  /\ next_ref (set_sizable_from from_bottom left_150) = next_ref left_150
  /\ heap (set_sizable_from from_bottom left_150) !! 1%nat
     = heap left_150 !! 1%nat.
Proof.
  destruct (sizable_from_change_reuses_strip left_150 from_bottom 1%nat 3%nat)
    as (_ & Hstrip & Hnext & _ & _ & _ & Hpanel);
    [reflexivity | reflexivity | discriminate | discriminate |].
  repeat split; assumption.
Defined.

Example add_widget_index_ignored_witness :
  add_widget (new_splitter from_right 100 250 None None 150 150 None)
    (Some 1%nat) 5
  = add_widget (new_splitter from_right 100 250 None None 150 150 None)
      (Some 1%nat) 0
  /\ children (splitter (snd (add_widget
        (new_splitter from_right 100 250 None None 150 150 None)
        (Some 1%nat) 5))) !! 1%nat = Some 1%nat.
Proof.
  destruct (add_widget_index_ignored
              (new_splitter from_right 100 250 None None 150 150 None)
              1%nat 5 0) as (Hsame & _ & _ & Hpos);
    [reflexivity|].
  split; [exact Hsame|].
  apply Hpos; [intros c Hc; inversion Hc | discriminate].
Defined.

(** Adding a panel again after [clear_widgets]: the strip has stayed in
    the child list, and the new panel still lands behind it. *)
Example add_again_after_clear :
  let w := clear_widgets
             (with_panel (new_splitter from_right 100 250 None None 150 150
                            None)) in
  _container (splitter w) = None
  /\ children (splitter w) = [3%nat]
  /\ children (splitter (snd (add_widget w (Some 2%nat) 7)))
     = [3%nat; 2%nat].
Proof. repeat split. Qed.

(** ** The handlers bound to pointer-down and pointer-up *)

(** The callback that [on_sizable_from] binds to the strip's
    [on_touch_down] is [strip_down], and the one bound to [on_touch_up]
    is [strip_up]. *)
Lemma bound_handlers :
  exists strip, heap left_150 !! 3%nat = Some strip
    /\ bound on_touch_down strip = [strip_down_m]
    /\ bound on_touch_move strip = [strip_move_m]
    /\ bound on_touch_up strip = [strip_up_m].
Proof. eexists. repeat split. Qed.

(** [strip_down] never adds an owner to the gesture, and [strip_up]
    never takes one away. *)
Lemma strip_down_never_grabs (s : Splitter) (touch : Touch) (r : ref) :
  r ∈ grab_list (snd (strip_down s touch)) -> r ∈ grab_list touch.
Proof.
  unfold strip_down. destruct (negb _); cbn; [trivial|].
  apply elem_of_remove_first.
Qed.

Lemma strip_up_never_releases (s : Splitter) (touch : Touch) (r : ref) :
  r ∈ grab_list touch -> r ∈ grab_list (snd (strip_up s touch)).
Proof.
  unfold strip_up. destruct (negb _); cbn; [trivial|].
  intros Hin. apply elem_of_app. now left.
Qed.

(** C2, on the code.  A pointer-down within the Splitter's bounds that
    nobody has grabbed runs [strip_down], which returns without grabbing:
    the touch comes back with an empty grab list. *)
Theorem pointer_down_does_not_grab :
  collide_point (splitter left_150) (pos fresh_touch) = true
  /\ dispatch deferred_layout on_touch_down left_150 fresh_touch
     = Ok (false, left_150, fresh_touch)
  /\ grab_list fresh_touch = [].
Proof. repeat split. Qed.

(** C3, on the code.  A pointer-up within the bounds whose capture owner
    is the Splitter runs [strip_up], which grabs the gesture once more
    instead of releasing it; a pointer-up owned by nobody is grabbed
    too. *)
Theorem pointer_up_does_not_release :
  dispatch deferred_layout on_touch_up left_150 owned_touch
  = Ok (false, left_150, grab 0%nat owned_touch)
  /\ grab_list (grab 0%nat owned_touch) = [0%nat; 0%nat]
  /\ dispatch deferred_layout on_touch_up left_150 fresh_touch
     = Ok (false, left_150, grab 0%nat fresh_touch)
  /\ grab_list (grab 0%nat fresh_touch) = [0%nat].
Proof. repeat split. Qed.

(** ** More on the drag handler *)

Lemma clamp_size_mono (v1 v2 lo hi : Q) :
  lo <= hi -> v1 <= v2 -> clamp_size v1 lo hi <= clamp_size v2 lo hi.
Proof.
  intros Hle Hv. unfold clamp_size.
  destruct (gt v1 hi) eqn:H1, (gt v2 hi) eqn:H2,
    (lt v1 lo) eqn:H3, (lt v2 lo) eqn:H4; reflect_cmp; lra.
Qed.

Lemma clamp_size_inverted (v lo hi : Q) :
  hi < lo -> clamp_size v lo hi = (if gt v hi then hi else lo).
Proof.
  intros Hinv. unfold clamp_size.
  destruct (gt v hi) eqn:H1; [reflexivity|].
  destruct (lt v lo) eqn:H2; [reflexivity|]. reflect_cmp. lra.
Qed.

Lemma set_active_restore (s : Splitter) :
  set_active_size (active_size s) (set_active_hint (active_hint s) s) = s.
Proof.
  unfold set_active_size, set_active_hint, active_size, active_hint.
  now destruct s as [? []].
Qed.

Section DragMore.

Variable realize : Q -> Q -> Q -> Q.

(** A handled fixed-mode move, in one equation. *)
Lemma fixed_move_result (s : Splitter) (touch : Touch) :
  handled_move s touch ->
  fixed_mode s ->
  strip_move realize s touch
  = Ok (PyNone, clamp_active (set_active_size (fixed_target s touch) s)).
Proof.
  intros Hgrab Hfixed. rewrite (strip_move_handled realize s touch Hgrab).
  unfold drag_update, fixed_target, dragged_size. rewrite Hfixed.
  now destruct (gt (active_size s) 0).
Qed.

Lemma fixed_move_size (s : Splitter) (touch : Touch) :
  active_size (clamp_active (set_active_size (fixed_target s touch) s))
  = clamp_size (fixed_target s touch) (min_size s) (max_size s).
Proof.
  destruct (clamp_active_spec (set_active_size (fixed_target s touch) s))
    as (-> & _).
  rewrite active_size_set.
  now destruct (set_active_size_frame (fixed_target s touch) s)
    as (_ & -> & -> & _).
Qed.

(** A handled stretch-mode move, in one equation. *)
Lemma stretch_move_result (s : Splitter) (touch : Touch) (hint : Q)
  (p : Parent) :
  handled_move s touch ->
  stretch_hint (active_hint s) = Some hint ->
  parent s = Some p ->
  ~ active_extent (sizable_from s) p == 0 ->
  let extent := active_extent (sizable_from s) p in
  let hint' := hint + drag_sign (sizable_from s)
                      * (active_delta s touch / extent) in
  strip_move realize s touch
  = Ok (PyNone,
        clamp_active (set_active_size (realize hint' extent (active_size s))
                        (set_active_hint (Some hint') s))).
Proof.
  intros Hgrab Hhint Hpar Hext extent hint'.
  rewrite (strip_move_handled realize s touch Hgrab).
  unfold drag_update. rewrite Hhint, Hpar.
  apply Qeq_bool_false in Hext. now rewrite Hext.
Qed.

(** X1.  A move writes nothing but the size and the size hint on the
    resize axis: putting those two back gives the state before. *)
Theorem strip_move_writes_active_axis_only (s : Splitter) (touch : Touch)
  (v : PyVal) (s' : Splitter) :
  strip_move realize s touch = Ok (v, s') ->
  set_active_size (active_size s) (set_active_hint (active_hint s) s') = s.
Proof.
  destruct (is_ (grab_current touch) (_strip s)) eqn:Hgrab.
  - rewrite (strip_move_handled realize s touch Hgrab).
    unfold drag_update, clamp_active, set_active_size, set_active_hint,
      active_size, active_hint, active_delta, active_extent.
    destruct s as [sf e ss mn mx c st ch o hx hy px py wd ht pa ob].
    destruct e; cbn -[gt lt Qplus Qmult Qdiv Qeq_bool];
      (destruct (stretch_hint _);
       [destruct pa; [destruct (Qeq_bool _ 0)|]|destruct (gt _ 0)];
       cbn -[gt lt Qplus Qmult Qdiv Qeq_bool]; try discriminate;
       (destruct (gt _ mx); [|destruct (lt _ mn)]);
       intros [= _ <-]; reflexivity).
  - rewrite (strip_move_declined realize s touch Hgrab).
    intros [= _ <-]. apply set_active_restore.
Qed.

(** X2.  In fixed-size mode a handled move never raises, parent or no
    parent: it returns, leaves the size hint alone, and the size ends at
    the clamp of [size + sign * delta] for a positive size and of 1
    otherwise. *)
Theorem fixed_move_returns (s : Splitter) (touch : Touch) :
  handled_move s touch ->
  fixed_mode s ->
  exists s', strip_move realize s touch = Ok (PyNone, s')
    /\ active_size s'
       = clamp_size (fixed_target s touch) (min_size s) (max_size s)
    /\ active_hint s' = active_hint s.
Proof.
  intros Hgrab Hfixed. eexists. split; [now apply fixed_move_result|].
  split; [apply fixed_move_size|].
  destruct (clamp_active_spec (set_active_size (fixed_target s touch) s))
    as (_ & _ & _ & _ & ->).
  apply set_active_size_frame.
Qed.

(** X3.  With the constraints the wrong way round, [max_size <
    min_size], the test against [max_size] comes first: every handled
    move leaves the size at [max_size] or at [min_size], never in
    between. *)
Theorem inverted_constraints (s : Splitter) (touch : Touch) (v : PyVal)
  (s' : Splitter) :
  handled_move s touch ->
  max_size s < min_size s ->
  strip_move realize s touch = Ok (v, s') ->
  active_size s' = max_size s \/ active_size s' = min_size s.
Proof.
  intros Hgrab Hinv. rewrite (strip_move_handled realize s touch Hgrab).
  destruct (drag_update realize s touch) as [s1|err] eqn:Hupd;
    [|discriminate].
  intros [= _ <-].
  destruct (drag_update_frame realize s s1 touch Hupd) as (_ & Hlo & Hhi).
  destruct (clamp_active_spec s1) as (-> & _).
  rewrite clamp_size_inverted by (now rewrite Hlo, Hhi).
  rewrite Hlo, Hhi. destruct (gt _ _); [now left | now right].
Qed.

(** X4.  In fixed-size mode with [min_size <= max_size] the size after a
    handled move grows with the signed delta: of two moves from the same
    state, the one with the larger [sign * delta] never ends smaller. *)
Theorem fixed_move_monotone (s : Splitter) (t1 t2 : Touch) (v1 v2 : PyVal)
  (s1 s2 : Splitter) :
  handled_move s t1 ->
  handled_move s t2 ->
  fixed_mode s ->
  min_size s <= max_size s ->
  drag_sign (sizable_from s) * active_delta s t1
    <= drag_sign (sizable_from s) * active_delta s t2 ->
  strip_move realize s t1 = Ok (v1, s1) ->
  strip_move realize s t2 = Ok (v2, s2) ->
  active_size s1 <= active_size s2.
Proof.
  intros Hg1 Hg2 Hfixed Hle Hd.
  rewrite (fixed_move_result s t1 Hg1 Hfixed),
    (fixed_move_result s t2 Hg2 Hfixed).
  intros [= _ <-] [= _ <-]. rewrite !fixed_move_size.
  apply clamp_size_mono; [exact Hle|].
  unfold fixed_target, dragged_size.
  destruct (gt (active_size s) 0); lra.
Qed.

(** X5.  A stretch-mode move that brings the size hint to 0 leaves the
    Splitter in fixed-size mode: 0 is a falsy hint, so the next move
    adds to the pixel size. *)
Theorem stretch_to_zero_turns_fixed (s : Splitter) (touch : Touch)
  (hint : Q) (p : Parent) (v : PyVal) (s' : Splitter) :
  handled_move s touch ->
  stretch_hint (active_hint s) = Some hint ->
  parent s = Some p ->
  ~ active_extent (sizable_from s) p == 0 ->
  hint + drag_sign (sizable_from s)
         * (active_delta s touch / active_extent (sizable_from s) p) == 0 ->
  strip_move realize s touch = Ok (v, s') ->
  fixed_mode s'.
Proof.
  intros Hgrab Hhint Hpar Hext Hzero.
  rewrite (stretch_move_result s touch hint p Hgrab Hhint Hpar Hext).
  intros [= _ <-]. unfold fixed_mode.
  match goal with |- context [clamp_active ?s1] =>
    destruct (clamp_active_spec s1) as (_ & _ & _ & _ & ->)
  end.
  match goal with |- context [set_active_size ?v ?s1] =>
    destruct (set_active_size_frame v s1) as (_ & _ & _ & ->)
  end.
  match goal with |- context [set_active_hint ?h ?s1] =>
    destruct (set_active_hint_frame h s1) as (_ & _ & _ & _ & ->)
  end.
  cbn. apply Qeq_bool_iff in Hzero. now rewrite Hzero.
Qed.

End DragMore.

Example fixed_move_returns_witness :
  exists s', strip_move deferred_layout orphan_fixed (drag 0 30)
             = Ok (PyNone, s')
    /\ active_size s' == 180.
Proof.
  destruct (fixed_move_returns deferred_layout orphan_fixed (drag 0 30))
    as (s' & Hrun & Hsize & _);
    [vm_compute; reflexivity | vm_compute; reflexivity |].
  exists s'. split; [exact Hrun|]. rewrite Hsize. vm_compute. reflexivity.
Defined.

Example inverted_constraints_witness :
  active_size (with_width 100 inverted) = max_size inverted
  \/ active_size (with_width 100 inverted) = min_size inverted.
Proof.
  apply (inverted_constraints deferred_layout inverted (drag 20 0) PyNone);
    vm_compute; reflexivity.
Defined.

Example fixed_move_monotone_witness :
  active_size (with_width 140 (fixed_150 from_left))
  <= active_size (with_width 160 (fixed_150 from_left)).
Proof.
  apply (fixed_move_monotone deferred_layout (fixed_150 from_left)
           (drag 10 0) (drag (-10) 0) PyNone PyNone);
    vm_compute; (reflexivity || discriminate).
Defined.

Example stretch_to_zero_turns_fixed_witness :
  fixed_mode (with_size_hint_x (Some ((1 # 5) + 1 * (-200 / 1000)))
                (stretch_right (1 # 5))).
Proof.
  apply (stretch_to_zero_turns_fixed deferred_layout (stretch_right (1 # 5))
           (drag (-200) 0) (1 # 5) window PyNone);
    vm_compute; (reflexivity || discriminate).
Defined.

(** ** More on containment and edge switching *)

Lemma elem_of_remove_first_ne {A} `{EqDecision A} (a x : A) (l : list A) :
  x <> a -> x ∈ l -> x ∈ remove_first a l.
Proof.
  intros Hne. induction l as [|b l IH]; cbn; [trivial|].
  destruct (decide (a = b)) as [<-|Hab].
  - intros [->|Hin]%elem_of_cons; [contradiction | exact Hin].
  - intros [->|Hin]%elem_of_cons; [left | right; auto].
Qed.

Lemma NoDup_remove_first {A} `{EqDecision A} (a : A) (l : list A) :
  NoDup l -> NoDup (remove_first a l) /\ a ∉ remove_first a l.
Proof.
  induction 1 as [|b l Hb Hnd IH]; cbn.
  - split; [constructor | apply not_elem_of_nil].
  - destruct (decide (a = b)) as [<-|Hab]; [now split|].
    destruct IH as [IH1 IH2]. split.
    + constructor; [|exact IH1].
      intros Hin. apply Hb. eapply elem_of_remove_first, Hin.
    + intros [->|Hin]%elem_of_cons; [congruence | contradiction].
Qed.

(** The strip, the observers and the orientation after
    [on_sizable_from] with a panel attached. *)
Lemma on_sizable_from_config (w : World) (c : ref) :
  _container (splitter w) = Some c ->
  let e := sizable_from (splitter w) in
  let st := strip_ref w in
  let w' := on_sizable_from w in
  heap w' !! st
  = (fun o => rebound (sized_for e (strip_size (splitter w)) o))
      <$> (if _strip (splitter w) is Some _ then heap w !! st
           else Some new_strip)
  /\ strip_size_observers (splitter w')
     = bind_ (st, attr_for e) (strip_size_observers (splitter w))
  /\ orientation (splitter w')
     = match e with
       | from_top | from_bottom => vertical
       | from_left | from_right => orientation (splitter w)
       end.
Proof.
  intros Hc. unfold on_sizable_from, strip_ref. rewrite Hc.
  destruct w as [s hp nx].
  destruct s as [sf e ss mn mx c' st ch o hx hy px py wd ht pa ob].
  cbn in Hc. subst c'.
  destruct st as [st|]; destruct e; cbn;
    rewrite ?lookup_alter_eq, ?lookup_insert_eq;
    (repeat split; try reflexivity);
    try (destruct (hp !! st); reflexivity).
Qed.

(** X6.  After a successful [add_widget] on a Splitter whose child list
    is empty or holds just the strip, the children are exactly the panel
    and the strip, panel first for the edges left and top, strip first
    for right and bottom. *)
Theorem add_widget_children (w : World) (wd : ref) (index : Z) :
  _container (splitter w) = None ->
  _strip (splitter w) <> Some wd ->
  children (splitter w) = []
  \/ (exists st, _strip (splitter w) = Some st
                 /\ children (splitter w) = [st]) ->
  let w' := snd (add_widget w (Some wd) index) in
  children (splitter w')
  = children_for (sizable_from (splitter w)) wd (strip_ref w)
  /\ _strip (splitter w') = Some (strip_ref w).
Proof.
  intros Hc Hne Hch. unfold add_widget. rewrite Hc. cbn [snd].
  match goal with |- context [on_sizable_from ?w0] => set (w1 := w0) end.
  assert (Hc1 : _container (splitter w1) = Some wd).
  { unfold w1. now destruct (in_ _ ["l"; "r"]%char),
      (in_ _ ["r"; "b"]%char). }
  destruct (on_sizable_from_attached w1 wd Hc1)
    as (Hst' & _ & _ & Hch' & _).
  assert (Hsr : default (next_ref w1) (_strip (splitter w1)) = strip_ref w).
  { unfold w1, strip_ref. now destruct (in_ _ ["l"; "r"]%char),
      (in_ _ ["r"; "b"]%char). }
  rewrite Hsr in Hst', Hch'. split; [|exact Hst'].
  rewrite Hch'. clear Hch' Hst' Hc1 Hsr. subst w1. unfold strip_ref.
  destruct w as [s hp nx].
  destruct s as [sf e ss mn mx c' st ch o hx hy px py wd' ht pa ob].
  cbn in Hc, Hch, Hne. subst c'.
  destruct Hch as [->|(st' & -> & ->)].
  - destruct st as [st|], e; cbn -[remove_first];
      change (Z.to_nat 0) with 0%nat; change (Z.to_nat 1) with 1%nat;
      cbn -[remove_first];
      rewrite ?remove_first_ne by congruence; reflexivity.
  - destruct (decide (st' = wd)) as [->|Hd]; [congruence|].
    destruct e; cbn -[remove_first];
      change (Z.to_nat 0) with 0%nat; change (Z.to_nat 1) with 1%nat;
      cbn -[remove_first];
      rewrite ?remove_first_ne, ?remove_first_eq by congruence;
      reflexivity.
Qed.

(** X7.  When [sizable_from] changes with a panel attached, the strip is
    put where the new edge wants it even if it had been taken out of the
    child list: the children are again exactly the panel and the strip,
    in the order of the new edge. *)
Theorem edge_change_reorders_children (w : World) (e : Edge) (c st : ref) :
  _container (splitter w) = Some c ->
  _strip (splitter w) = Some st ->
  remove_first st (children (splitter w)) = [c] ->
  e <> sizable_from (splitter w) ->
  children (splitter (set_sizable_from e w)) = children_for e c st.
Proof.
  intros Hc Hst Hch Hne. unfold set_sizable_from.
  destruct (decide (e = sizable_from (splitter w))) as [|_]; [contradiction|].
  set (w1 := update_splitter (with_sizable_from e) w).
  assert (Hc1 : _container (splitter w1) = Some c) by exact Hc.
  assert (Hst1 : _strip (splitter w1) = Some st) by exact Hst.
  destruct (on_sizable_from_attached w1 c Hc1) as (_ & _ & _ & -> & _).
  rewrite Hst1. cbn. rewrite Hch.
  now destruct e.
Qed.

(** X8.  After [on_sizable_from] with a panel attached, the strip is
    sized for the edge: fixed width [strip_size] and stretch height for
    left and right, stretch width and fixed height [strip_size] for top
    and bottom. *)
Theorem strip_sized_for_edge (w : World) (c : ref) :
  _container (splitter w) = Some c ->
  _strip (splitter w) = None \/ is_Some (strip_widget w) ->
  exists o, strip_widget (on_sizable_from w) = Some o
    /\ match sizable_from (splitter w) with
       | from_left | from_right =>
         Widget.size_hint_x o = None /\ Widget.size_hint_y o = Some 1
         /\ Widget.width o = strip_size (splitter w)
       | from_top | from_bottom =>
         Widget.size_hint_x o = Some 1 /\ Widget.size_hint_y o = None
         /\ Widget.height o = strip_size (splitter w)
       end.
Proof.
  intros Hc Hstrip.
  destruct (on_sizable_from_attached w c Hc) as (Hst' & _).
  destruct (on_sizable_from_config w c Hc) as (Hheap & _).
  unfold strip_widget. rewrite Hst'. cbn. fold (strip_ref w).
  rewrite Hheap. unfold strip_widget, strip_ref in *.
  destruct (_strip (splitter w)) as [st|]; cbn in *.
  - destruct Hstrip as [|[o ->]]; [discriminate|].
    eexists. split; [reflexivity|].
    now destruct (sizable_from (splitter w)).
  - eexists. split; [reflexivity|].
    now destruct (sizable_from (splitter w)).
Qed.

(** X9.  Rebinding does not pile up handlers: a strip constructed by
    [on_sizable_from] has each of [strip_down], [strip_move] and
    [strip_up] bound exactly once, and every later [on_sizable_from]
    keeps it so. *)
Theorem handlers_bound_once (w : World) (c : ref) :
  _container (splitter w) = Some c ->
  _strip (splitter w) = None
  \/ (exists o, strip_widget w = Some o /\ bound_once o) ->
  exists o', strip_widget (on_sizable_from w) = Some o' /\ bound_once o'.
Proof.
  intros Hc Hstrip.
  destruct (on_sizable_from_attached w c Hc) as (Hst' & _).
  destruct (on_sizable_from_config w c Hc) as (Hheap & _).
  unfold strip_widget. rewrite Hst'. cbn. fold (strip_ref w).
  rewrite Hheap. unfold strip_widget, strip_ref in *.
  destruct (_strip (splitter w)) as [st|]; cbn in *.
  - destruct Hstrip as [|(o & -> & Hd & Hm & Hu)]; [discriminate|].
    eexists. split; [reflexivity|].
    unfold bound_once, rebound, sized_for.
    destruct (sizable_from (splitter w)); cbn; now rewrite Hd, Hm, Hu.
  - eexists. split; [reflexivity|].
    unfold bound_once. now destruct (sizable_from (splitter w)).
Qed.

(** X10.  Every [on_sizable_from] with a panel attached subscribes one
    more setter of the strip to [strip_size], the one for the axis of the
    edge, and unsubscribes none: the observers before are all still
    there, and the list is longer by one. *)
Theorem observers_only_grow (w : World) (c : ref) :
  _container (splitter w) = Some c ->
  let obs := strip_size_observers (splitter w) in
  let obs' := strip_size_observers (splitter (on_sizable_from w)) in
  (strip_ref w, attr_for (sizable_from (splitter w))) ∈ obs'
  /\ (forall x, x ∈ obs -> x ∈ obs')
  /\ length obs' = S (length obs).
Proof.
  intros Hc. destruct (on_sizable_from_config w c Hc) as (_ & Hobs & _).
  cbv zeta. rewrite Hobs. unfold bind_.
  repeat split.
  - apply elem_of_app. right. now left.
  - intros x Hx. apply elem_of_app. now left.
  - rewrite length_app. cbn. lia.
Qed.

(** X11.  A change of [sizable_from] with a panel attached sets the
    orientation to vertical for top and bottom, and leaves it as it is
    for left and right: it is never set back to horizontal. *)
Theorem orientation_never_reset (w : World) (e : Edge) (c : ref) :
  _container (splitter w) = Some c ->
  e <> sizable_from (splitter w) ->
  orientation (splitter (set_sizable_from e w))
  = match e with
    | from_top | from_bottom => vertical
    | from_left | from_right => orientation (splitter w)
    end.
Proof.
  intros Hc Hne. unfold set_sizable_from.
  destruct (decide (e = sizable_from (splitter w))) as [|_]; [contradiction|].
  set (w1 := update_splitter (with_sizable_from e) w).
  assert (Hc1 : _container (splitter w1) = Some c) by exact Hc.
  destruct (on_sizable_from_config w1 c Hc1) as (_ & _ & ->).
  reflexivity.
Qed.

(** X12.  The strip is constructed once: when the Splitter has a strip,
    [add_widget], [remove_widget], [clear_widgets] and a change of
    [sizable_from] all keep that very object as [_strip], and none of
    them constructs another. *)
Theorem strip_kept_for_life (w : World) (st : ref) (widget : option ref)
  (index : Z) (e : Edge) :
  _strip (splitter w) = Some st ->
  (_strip (splitter (snd (add_widget w widget index))) = Some st
   /\ next_ref (snd (add_widget w widget index)) = next_ref w)
  /\ (_strip (splitter (remove_widget w widget)) = Some st
      /\ next_ref (remove_widget w widget) = next_ref w)
  /\ (_strip (splitter (clear_widgets w)) = Some st
      /\ next_ref (clear_widgets w) = next_ref w)
  /\ (_strip (splitter (set_sizable_from e w)) = Some st
      /\ next_ref (set_sizable_from e w) = next_ref w).
Proof.
  intros Hst.
  assert (Hrm : forall wd, _strip (splitter (remove_widget w wd)) = Some st
                           /\ next_ref (remove_widget w wd) = next_ref w).
  { intros wd. unfold remove_widget.
    destruct (is_ _ _); destruct wd; cbn; now split. }
  assert (Hon : forall w1, _strip (splitter w1) = Some st ->
            _strip (splitter (on_sizable_from w1)) = Some st
            /\ next_ref (on_sizable_from w1) = next_ref w1).
  { intros w1 Hst1.
    destruct (_container (splitter w1)) as [c|] eqn:Hc.
    - destruct (on_sizable_from_attached w1 c Hc)
        as (Hs & _ & _ & _ & Hn & _).
      rewrite Hst1 in Hs, Hn. now split.
    - unfold on_sizable_from. rewrite Hc. now split. }
  repeat split; try apply Hrm.
  - unfold add_widget.
    destruct (_container (splitter w)), widget; try exact Hst.
    cbn [snd]. apply Hon.
    now destruct (in_ _ ["l"; "r"]%char), (in_ _ ["r"; "b"]%char).
  - unfold add_widget.
    destruct (_container (splitter w)), widget; try reflexivity.
    cbn [snd].
    match goal with |- context [on_sizable_from ?w0] =>
      destruct (Hon w0) as [_ ->]
    end; now destruct (in_ _ ["l"; "r"]%char), (in_ _ ["r"; "b"]%char).
  - unfold set_sizable_from. destruct (decide _); [exact Hst|].
    now apply Hon.
  - unfold set_sizable_from. destruct (decide _); [reflexivity|].
    now destruct (Hon (update_splitter (with_sizable_from e) w) Hst)
      as [_ ->].
Qed.

(** X13.  [clear_widgets] detaches the panel and nothing else: the
    panel leaves the child list, while the strip stays a child and stays
    the Splitter's strip. *)
Theorem clear_widgets_keeps_strip (w : World) (c : ref) :
  _container (splitter w) = Some c ->
  let w' := clear_widgets w in
  _container (splitter w') = None
  /\ children (splitter w') = remove_first c (children (splitter w))
  /\ _strip (splitter w') = _strip (splitter w)
  /\ heap w' = heap w
  /\ (forall st, st <> c -> st ∈ children (splitter w) ->
        st ∈ children (splitter w')).
Proof.
  intros Hc. unfold clear_widgets, remove_widget. rewrite Hc. cbn.
  rewrite Hc. cbn. rewrite Nat.eqb_refl. cbn.
  repeat split. intros st Hne Hin. now apply elem_of_remove_first_ne.
Qed.

(** X14.  A successful [add_widget] sets the panel's size hint on the
    resize axis to 1 and leaves its other size hint and its size as they
    were. *)
Theorem add_widget_stretches_panel (w : World) (wd : ref) (o : Widget.t)
  (index : Z) :
  _container (splitter w) = None ->
  heap w !! wd = Some o ->
  wd <> strip_ref w ->
  exists o', heap (snd (add_widget w (Some wd) index)) !! wd = Some o'
    /\ Widget.width o' = Widget.width o
    /\ Widget.height o' = Widget.height o
    /\ match sizable_from (splitter w) with
       | from_left | from_right =>
         Widget.size_hint_x o' = Some 1
         /\ Widget.size_hint_y o' = Widget.size_hint_y o
       | from_top | from_bottom =>
         Widget.size_hint_y o' = Some 1
         /\ Widget.size_hint_x o' = Widget.size_hint_x o
       end.
Proof.
  intros Hc Ho Hne. unfold add_widget. rewrite Hc. cbn [snd].
  match goal with |- context [on_sizable_from ?w0] => set (w1 := w0) end.
  assert (Hc1 : _container (splitter w1) = Some wd).
  { unfold w1. now destruct (in_ _ ["l"; "r"]%char),
      (in_ _ ["r"; "b"]%char). }
  assert (Hsr : default (next_ref w1) (_strip (splitter w1)) = strip_ref w).
  { unfold w1, strip_ref. now destruct (in_ _ ["l"; "r"]%char),
      (in_ _ ["r"; "b"]%char). }
  destruct (on_sizable_from_attached w1 wd Hc1)
    as (_ & _ & _ & _ & _ & Hheap).
  rewrite Hsr in Hheap. rewrite (Hheap wd Hne).
  unfold w1. destruct (sizable_from (splitter w)) eqn:He; cbn;
    rewrite He; cbn; rewrite lookup_alter_eq, Ho; cbn;
    eexists; repeat split.
Qed.

(** ** Witnesses *)

Example strip_move_writes_active_axis_only_witness :
  set_active_size (active_size (fixed_150 from_left))
    (set_active_hint (active_hint (fixed_150 from_left))
       (with_width 140 (fixed_150 from_left)))
  = fixed_150 from_left.
Proof.
  apply (strip_move_writes_active_axis_only deferred_layout
           (fixed_150 from_left) (drag 10 0) PyNone).
  vm_compute. reflexivity.
Defined.

Example add_widget_children_witness :
  children (splitter (snd (add_widget
    (new_splitter from_bottom 100 250 None None 150 150 None)
    (Some 1%nat) 0))) = [3%nat; 1%nat].
Proof.
  etransitivity.
  - apply (add_widget_children
             (new_splitter from_bottom 100 250 None None 150 150 None)
             1%nat 0);
      [vm_compute; reflexivity | vm_compute; discriminate
      | left; vm_compute; reflexivity].
  - vm_compute. reflexivity.
Defined.

Example edge_change_reorders_children_witness :
  children (splitter (set_sizable_from from_right
                        (remove_widget left_150 (Some 3%nat))))
  = [3%nat; 1%nat].
Proof.
  etransitivity.
  - apply (edge_change_reorders_children
             (remove_widget left_150 (Some 3%nat)) from_right 1%nat 3%nat);
      vm_compute; (reflexivity || discriminate).
  - reflexivity.
Defined.

Example strip_sized_for_edge_witness :
  exists o, strip_widget (on_sizable_from left_150) = Some o
    /\ Widget.width o = 10.
Proof.
  destruct (strip_sized_for_edge left_150 1%nat) as (o & Ho & Hsize);
    [vm_compute; reflexivity
    | right; vm_compute; eexists; reflexivity |].
  exists o. split; [exact Ho|].
  assert (He : sizable_from (splitter left_150) = from_left)
    by (vm_compute; reflexivity).
  rewrite He in Hsize. destruct Hsize as (_ & _ & ->).
  vm_compute. reflexivity.
Defined.

Example handlers_bound_once_witness :
  exists o', strip_widget (on_sizable_from left_150) = Some o'
    /\ bound_once o'.
Proof.
  apply (handlers_bound_once left_150 1%nat);
    [vm_compute; reflexivity|].
  right. eexists. split; [vm_compute; reflexivity|].
  vm_compute. repeat split.
Defined.

Example observers_only_grow_witness :
  (3%nat, attr_width)
    ∈ strip_size_observers
        (splitter (on_sizable_from (set_sizable_from from_top left_150))).
Proof.
  destruct (observers_only_grow (set_sizable_from from_top left_150) 1%nat)
    as (_ & Hkeep & _); [vm_compute; reflexivity|].
  apply Hkeep. vm_compute. left.
Defined.

Example orientation_never_reset_witness :
  orientation (splitter (set_sizable_from from_left
                           (set_sizable_from from_top left_150)))
  = vertical.
Proof.
  etransitivity.
  - apply (orientation_never_reset (set_sizable_from from_top left_150)
             from_left 1%nat);
      vm_compute; (reflexivity || discriminate).
  - vm_compute. reflexivity.
Defined.

Example strip_kept_for_life_witness :
  _strip (splitter (clear_widgets left_150)) = Some 3%nat
  /\ _strip (splitter (set_sizable_from from_top left_150)) = Some 3%nat.
Proof.
  destruct (strip_kept_for_life left_150 3%nat (Some 2%nat) 0 from_top)
    as (_ & _ & (Hclear & _) & (Hedge & _)); [vm_compute; reflexivity|].
  split; assumption.
Defined.

Example clear_widgets_keeps_strip_witness :
  _container (splitter (clear_widgets left_150)) = None
  /\ 3%nat ∈ children (splitter (clear_widgets left_150)).
Proof.
  destruct (clear_widgets_keeps_strip left_150 1%nat)
    as (Hnone & _ & _ & _ & Hstay); [vm_compute; reflexivity|].
  split; [exact Hnone|]. apply Hstay; [discriminate|].
  vm_compute. right. left.
Defined.

Example add_widget_stretches_panel_witness :
  exists o', heap (snd (add_widget
               (new_splitter from_left 100 250 None None 150 150 None)
               (Some 1%nat) 0)) !! 1%nat = Some o'
    /\ Widget.size_hint_x o' = Some 1.
Proof.
  destruct (add_widget_stretches_panel
              (new_splitter from_left 100 250 None None 150 150 None)
              1%nat panel 0) as (o' & Ho & _ & _ & Hhint);
    [vm_compute; reflexivity | vm_compute; reflexivity
    | vm_compute; discriminate |].
  exists o'. split; [exact Ho|].
  assert (He : sizable_from (splitter
            (new_splitter from_left 100 250 None None 150 150 None))
          = from_left) by (vm_compute; reflexivity).
  rewrite He in Hhint. apply Hhint.
Defined.

Lemma remove_first_app_notin {A} `{EqDecision A} (a : A) (l1 l2 : list A) :
  a ∉ l1 -> remove_first a (l1 ++ l2) = l1 ++ remove_first a l2.
Proof.
  induction l1 as [|b l1 IH]; cbn; [reflexivity|].
  intros Hnotin. apply not_elem_of_cons in Hnotin as [Hne Hnotin].
  destruct (decide (a = b)); [contradiction|]. now rewrite IH.
Qed.

Lemma remove_first_insert_at {A} `{EqDecision A} (i : Z) (a : A)
  (l : list A) :
  a ∉ l -> remove_first a (list_insert_at i a l) = l.
Proof.
  intros Hnotin. unfold list_insert_at.
  set (n := if (i <? 0)%Z then _ else _).
  rewrite remove_first_app_notin, remove_first_eq, take_drop; [reflexivity|].
  intros Hin. apply Hnotin. rewrite <- (take_drop n l).
  apply elem_of_app. now left.
Qed.

Lemma rebind_idem {A} `{EqDecision A} (a : A) (l : list A) :
  NoDup l ->
  bind_ a (unbind a (bind_ a (unbind a l))) = bind_ a (unbind a l).
Proof.
  intros Hnd. unfold bind_, unbind.
  destruct (NoDup_remove_first a l Hnd) as [_ Hnotin].
  rewrite remove_first_app_notin by exact Hnotin.
  now rewrite remove_first_eq, app_nil_r.
Qed.

(** [on_sizable_from] with a panel attached and a strip in place, as
    one assignment to the Splitter and one to the strip. *)
Lemma on_sizable_from_reuse (w : World) (c st : ref) :
  _container (splitter w) = Some c ->
  _strip (splitter w) = Some st ->
  let s := splitter w in
  let e := sizable_from s in
  on_sizable_from w
  = mkWorld
      (with_children
         (list_insert_at (strip_index e) st (remove_first st (children s)))
         (with_strip_size_observers
            (bind_ (st, attr_for e) (strip_size_observers s))
            (with_orientation
               match e with
               | from_top | from_bottom => vertical
               | from_left | from_right => orientation s
               end s)))
      (alter (fun o => rebound (sized_for e (strip_size s) o)) st (heap w))
      (next_ref w).
Proof.
  intros Hc Hst.
  destruct w as [s hp nx].
  destruct s as [sf e ss mn mx c' st' ch ori hx hy px py wd ht pa ob].
  cbn in Hc, Hst. subst c' st'.
  destruct e;
    cbv beta iota zeta delta
      [on_sizable_from update_widget update_splitter sup_add_widget
       sup_remove_widget with_children with_strip_size_observers
       with_orientation with__strip splitter heap next_ref self
       sizable_from strip_size min_size max_size _container _strip children
       orientation size_hint_x size_hint_y x y width height parent
       strip_size_observers first_char option_name in_ existsb Ascii.eqb
       Bool.eqb orb strip_index attr_for unbind_setter];
    (f_equal; rewrite !alter_alter_eq; apply alter_ext;
     intros o _; reflexivity).
Qed.

(** X15.  Once a panel and a strip are in place, calling
    [on_sizable_from] again changes nothing but the [strip_size]
    observers, which get one more setter: where the child list and the
    strip's handler lists hold no duplicates, the children, the
    orientation and the strip object are as the first call left them. *)
Theorem on_sizable_from_again (w : World) (c st : ref) (o : Widget.t) :
  _container (splitter w) = Some c ->
  _strip (splitter w) = Some st ->
  heap w !! st = Some o ->
  NoDup (children (splitter w)) ->
  NoDup (Widget.on_touch_down o) ->
  NoDup (Widget.on_touch_move o) ->
  NoDup (Widget.on_touch_up o) ->
  on_sizable_from (on_sizable_from w)
  = update_splitter
      (fun s => with_strip_size_observers
         (bind_ (st, attr_for (sizable_from s)) (strip_size_observers s)) s)
      (on_sizable_from w).
Proof.
  intros Hc Hst Ho Hch Hd Hm Hu.
  rewrite (on_sizable_from_reuse w c st Hc Hst).
  match goal with |- on_sizable_from ?w1 = _ =>
    rewrite (on_sizable_from_reuse w1 c st Hc Hst)
  end.
  destruct w as [s hp nx].
  destruct s as [sf e ss mn mx c' st' ch ori hx hy px py wd ht pa ob].
  cbn in Hc, Hst, Ho, Hch. subst c' st'.
  cbv beta iota zeta delta [splitter heap next_ref sizable_from children
    strip_size_observers orientation strip_size with_children
    with_strip_size_observers with_orientation self min_size max_size
    _container _strip size_hint_x size_hint_y x y width height parent
    update_splitter].
  f_equal; [f_equal|].
  - f_equal. apply remove_first_insert_at, NoDup_remove_first, Hch.
  - now destruct e.
  - rewrite alter_alter_eq. apply alter_ext. intros o' Ho'.
    rewrite Ho in Ho'. injection Ho' as <-.
    unfold rebound. destruct e; cbn -[bind_ unbind];
      now rewrite !rebind_idem.
Qed.

(** X16.  No handler ever consumes the event: whichever of
    [strip_down], [strip_move] and [strip_up] are bound, in whatever
    order, an event that they process without raising is reported as
    unhandled. *)
Theorem handlers_never_consume (realize : Q -> Q -> Q -> Q)
  (hs : list Method) (s : Splitter) (touch : Touch) (handled : bool)
  (s' : Splitter) (touch' : Touch) :
  run_handlers realize hs s touch = Ok (handled, s', touch') ->
  handled = false.
Proof.
  revert s touch. induction hs as [|m hs IH]; intros s touch; cbn.
  - now intros [= <- _ _].
  - assert (Hcall : forall v s1 t1,
              call realize m s touch = Ok (v, s1, t1) -> truthy v = false).
    { intros v s1 t1. destruct m; unfold call, strip_down, strip_up.
      - destruct (negb _); now intros [= <- _ _].
      - destruct (is_ (grab_current touch) (_strip s)) eqn:Hgrab.
        + rewrite (strip_move_handled realize s touch Hgrab).
          destruct (drag_update realize s touch); cbn; [|discriminate].
          now intros [= <- _ _].
        + rewrite (strip_move_declined realize s touch Hgrab). cbn.
          now intros [= <- _ _].
      - destruct (negb _); now intros [= <- _ _]. }
    destruct (call realize m s touch) as [[[v s1] t1]|err]; [|discriminate].
    cbn. rewrite (Hcall v s1 t1 eq_refl). apply IH.
Qed.



Ltac by_decision := eapply bool_decide_unpack; vm_compute; exact I.

Example on_sizable_from_again_witness :
  on_sizable_from (on_sizable_from left_150)
  = update_splitter
      (fun s => with_strip_size_observers
         (bind_ (3%nat, attr_for (sizable_from s)) (strip_size_observers s))
         s)
      (on_sizable_from left_150).
Proof.
  apply (on_sizable_from_again left_150 1%nat 3%nat
           (default new_strip (heap left_150 !! 3%nat)));
    try (vm_compute; reflexivity); by_decision.
Defined.

Example handlers_never_consume_witness :
  run_handlers deferred_layout [strip_up_m; strip_move_m; strip_down_m]
    (splitter left_150) fresh_touch
  = Ok (false, splitter left_150, grab 0%nat fresh_touch)
  /\ false = false.
Proof.
  assert (Hrun : run_handlers deferred_layout
                   [strip_up_m; strip_move_m; strip_down_m]
                   (splitter left_150) fresh_touch
                 = Ok (false, splitter left_150, grab 0%nat fresh_touch))
    by (vm_compute; reflexivity).
  split; [exact Hrun|].
  exact (handlers_never_consume deferred_layout _ _ _ _ _ _ Hrun).
Defined.

